(** * make-self-extracting-bin: the command-line front end

    A shallow embedding of the command-line program (the single TypeScript
    source file of the repository) and the properties of its request
    validation, entry resolution and duplicate detection.

    The program is a script: it parses its options (which may throw), shows
    the help text or runs one asynchronous function that validates the
    options, reads the pre/post-extraction script files, resolves every
    input path to an archive entry, rejects duplicate entry names, asks for
    the output stream and hands everything to [makeSelfExtractingScript] of
    the make-self-extracting package.  Effects (console, file reads, the
    request for the output stream, [process.exit]) are modelled in a
    state-and-exit monad over a [World]; the wait for the assembler, during
    which Node opens the output file, is a parameter. *)

From Stdlib Require Import ZArith QArith Lia Ascii String Decimal DecimalString.
From stdpp Require Import base option list strings gmap.

Local Open Scope string_scope.
Local Open Scope list_scope.

(** ** JavaScript values *)

(** A JavaScript [number] as far as strict equality can tell: every finite
    double is a rational (the two zeros are equal under [===]), and there are
    the two infinities and NaN.  [Number("abc")] is NaN, [Number("1e999")]
    is Infinity. *)
Inductive number : Type :=
  | Finite (q : Q)
  | Infinity (negative : bool)
  | NaN.

(** [a === b] on numbers: NaN is equal to nothing, itself included. *)
Definition number_strict_eq (a b : number) : bool :=
  match a, b with
  | Finite x, Finite y => Qeq_bool x y
  | Infinity s, Infinity t => Bool.eqb s t
  | _, _ => false
  end.

Definition of_Z (z : Z) : number := Finite (inject_Z z).

(** [String(n)] for an array length: the decimal digits. *)
Definition nat_to_string (n : nat) : string :=
  NilEmpty.string_of_uint (Nat.to_uint n).

(** [Array.prototype.some]. *)
Definition some {A : Type} (f : A -> bool) (l : list A) : bool := existsb f l.

(** A JavaScript [Map<string, V>]: keys are kept in insertion order, [set] on
    a present key replaces the value in place, on a new key it appends. *)
Module JsMap.
Definition t (V : Type) : Type := list (string * V).

Definition empty {V : Type} : t V := [].

Fixpoint get {V : Type} (k : string) (m : t V) : option V :=
  match m with
  | [] => None
  | (k', v) :: m' => if String.eqb k' k then Some v else get k m'
  end.

Fixpoint set {V : Type} (k : string) (v : V) (m : t V) : t V :=
  match m with
  | [] => [(k, v)]
  | (k', v') :: m' =>
      if String.eqb k' k then (k', v) :: m' else (k', v') :: set k v m'
  end.

Definition size {V : Type} (m : t V) : nat := length m.
End JsMap.

(** ** Node's [path] module

    The program uses [path.resolve], [path.relative] and [path.parse] of the
    Node runtime; they are not part of the repository, so the program is
    embedded over this interface.  Of the object [path.parse] returns, the
    program reads [base] and [ext]. *)
Record ParsedPath : Type := mkParsedPath {
  base : string;
  ext : string
}.

Class PathModule : Type := {
  path_resolve : string -> string;
  path_relative : string -> string -> string;
  path_parse : string -> ParsedPath
}.

(** ** Options *)

(** [OptionsType]: what [commandLineArgs] returns when it returns.  An
    absent optional property is [None] ([undefined]). *)
Record OptionsType : Type := mkOptions {
  type : string;
  compress_level : option number;
  pre_extract : option string;
  post_extract : option string;
  pre_extract_file : option string;
  post_extract_file : option string;
  omit_header : option bool;
  files : list string;
  root : option string;
  output : option string;
  help : bool
}.

(** The values that command-line-args collects from a command line it
    accepts, before defaults: one optional value per option definition.
    (The splitting of [process.argv] belongs to the command-line-args
    package and is not modelled.  A flag given without its value makes the
    package return [null], a value outside the declared [OptionsType];
    such command lines are not covered.) *)
Record CommandLine : Type := mkCommandLine {
  arg_type : option string;
  arg_compress_level : option number;
  arg_pre_extract : option string;
  arg_post_extract : option string;
  arg_pre_extract_file : option string;
  arg_post_extract_file : option string;
  arg_omit_header : option bool;
  arg_files : option (list string);
  arg_root : option string;
  arg_output : option string;
  arg_help : option bool
}.

(** The [defaultValue]s of [optionDefinitions]: [type] is ['tar'], [files]
    is the empty array and [help] is [false]; no other option has one. *)
Definition type_defaultValue : string := "tar".
Definition files_defaultValue : list string := [].
Definition help_defaultValue : bool := false.

Definition withDefaults (argv : CommandLine) : OptionsType :=
  {| type := default type_defaultValue (arg_type argv);
     compress_level := arg_compress_level argv;
     pre_extract := arg_pre_extract argv;
     post_extract := arg_post_extract argv;
     pre_extract_file := arg_pre_extract_file argv;
     post_extract_file := arg_post_extract_file argv;
     omit_header := arg_omit_header argv;
     files := default files_defaultValue (arg_files argv);
     root := arg_root argv;
     output := arg_output argv;
     help := default help_defaultValue (arg_help argv) |}.

(** A command line as line 101 meets it: command-line-args refuses it (it
    names an option that is not defined, or gives an option twice) and
    throws, or accepts it and collects its values. *)
Inductive Invocation : Type :=
  | Refused (argv : list string)
  | Accepted (supplied : CommandLine).

(** [commandLineArgs(optionDefinitions)]: [None] stands for the exception
    it throws. *)
Definition commandLineArgs (invocation : Invocation) : option OptionsType :=
  match invocation with
  | Refused _ => None
  | Accepted supplied => Some (withDefaults supplied)
  end.

(** Whether the command line asks for help. *)
Definition helpGiven (invocation : Invocation) : Prop :=
  match invocation with
  | Refused argv => "--help" ∈ argv \/ "-h" ∈ argv
  | Accepted supplied => arg_help supplied = Some true
  end.

(** [options['pre-extract'] = v] and [options['post-extract'] = v]. *)
Definition set_pre_extract (o : OptionsType) (v : string) : OptionsType :=
  {| type := type o; compress_level := compress_level o;
     pre_extract := Some v; post_extract := post_extract o;
     pre_extract_file := pre_extract_file o;
     post_extract_file := post_extract_file o;
     omit_header := omit_header o; files := files o; root := root o;
     output := output o; help := help o |}.

Definition set_post_extract (o : OptionsType) (v : string) : OptionsType :=
  {| type := type o; compress_level := compress_level o;
     pre_extract := pre_extract o; post_extract := Some v;
     pre_extract_file := pre_extract_file o;
     post_extract_file := post_extract_file o;
     omit_header := omit_header o; files := files o; root := root o;
     output := output o; help := help o |}.

(** ** Archive entries and the assembler's configuration *)

(** One element of the [files] array handed to the assembler. *)
Record FileEntry : Type := mkFileEntry {
  filename : string;
  path : string;
  mode : Z
}.

(** The first argument of [makeSelfExtractingScript]. *)
Record ScriptConfig : Type := mkScriptConfig {
  archiveFormat : string;
  compressionLevel : option number;
  omitLibraryHeader : option bool;
  preExtraction : option string;
  postExtraction : option string
}.

(** [process.stdout] or the stream [fs.createWriteStream] returned. *)
Inductive OutputStream : Type :=
  | Stdout
  | WriteStream (file : string).

(** ** The world and the process monad *)

Inductive Effect : Type :=
  | ConsoleLog (text : string)
  | ConsoleError (text : string)
  | ReadFile (file : string)
  | CreateWriteStream (file : string)
  | UncaughtException.

(** The files as the [fs] module finds them: the content read under a
    name, [None] when the read fails.  A name is whatever the program
    passes; which names reach the same file (a relative and an absolute
    spelling, a link) is up to the disk. *)
Definition Disk : Type := string -> option string.

#[global] Instance Disk_lookup : Lookup string string Disk :=
  fun name d => d name.

(** The disk and the effects performed so far, oldest first. *)
Record World : Type := mkWorld {
  disk : Disk;
  trace : list Effect
}.

(** A computation either returns or ends the process with an exit code. *)
Inductive Outcome (A : Type) : Type :=
  | Returned (a : A)
  | Exited (code : Z).
Arguments Returned {A} a.
Arguments Exited {A} code.

Definition Proc (A : Type) : Type := World -> Outcome A * World.

#[global] Instance Proc_ret : MRet Proc := fun A a w => (Returned a, w).
#[global] Instance Proc_bind : MBind Proc := fun A B f m w =>
  match m w with
  | (Returned a, w') => f a w'
  | (Exited c, w') => (Exited c, w')
  end.

Definition perform (e : Effect) : Proc unit :=
  fun w => (Returned tt, {| disk := disk w; trace := trace w ++ [e] |}).

Definition console_log (text : string) : Proc unit := perform (ConsoleLog text).
Definition console_error (text : string) : Proc unit :=
  perform (ConsoleError text).

(** [process.exit(code)] never returns. *)
Definition process_exit {A : Type} (code : Z) : Proc A :=
  fun w => (Exited code, w).

(** [(await fsp.readFile(file)).toString()] inside [try]: [None] stands for
    the rejection that the [catch] clause receives. *)
Definition readFile (file : string) : Proc (option string) :=
  fun w => (Returned (disk w !! file),
            {| disk := disk w; trace := trace w ++ [ReadFile file] |}).

(** [fs.createWriteStream(file)] returns the stream at once and leaves
    the disk as it is.  The file is opened later, while the assembler's
    promise is pending: that open creates or truncates the file, or fails,
    and a failure is an error event of the stream that nothing in the
    program handles. *)
Definition createWriteStream (file : string) : Proc OutputStream :=
  fun w => (Returned (WriteStream file),
            {| disk := disk w;
               trace := trace w ++ [CreateWriteStream file] |}).

(** An exception that nothing catches: Node reports it and the process
    ends with status 1. *)
Definition uncaughtException {A : Type} : Proc A :=
  fun w => (Exited 1,
            {| disk := disk w; trace := trace w ++ [UncaughtException] |}).

(** How the wait for the assembler ends: its promise resolves, its promise
    rejects, or the process is ended meanwhile by the error event of the
    output stream. *)
Inductive Settled : Type :=
  | Resolved
  | Rejected
  | StreamError.

(** The exit status of the process: a script that runs to its end exits
    with status 0. *)
Definition exit_status {A : Type} (r : Outcome A * World) : Z :=
  match fst r with
  | Returned _ => 0
  | Exited c => c
  end.

(** The octal literals [0o755] and [0o644]. *)
Definition mode_755 : Z := 7 * 64 + 5 * 8 + 5.
Definition mode_644 : Z := 6 * 64 + 4 * 8 + 4.

(** ** The program *)

Section Program.
Context {Path : PathModule}.

(** The text [commandLineUsage] renders from the option definitions. *)
Variable usage : string.

(** The wait for [makeSelfExtractingScript] of the make-self-extracting
    package: the assembler reads the entries' files and writes to the
    stream, whose file Node opens meanwhile; the result says how the wait
    ends and what the world is then. *)
Variable makeSelfExtractingScript :
  ScriptConfig -> list FileEntry -> OutputStream -> World -> Settled * World.

(** The help branch. *)
Definition showHelp : Proc unit :=
  console_log usage;; process_exit 0.

Definition validArchiveTypes : list string := ["tar"; "zip"].

(** [validateArchiveType]: the body tests [options.type], not its
    parameter. *)
Definition validateArchiveType (options : OptionsType)
    (value : option string) : Proc unit :=
  if negb (some (fun p => String.eqb p (type options)) validArchiveTypes)
  then console_error "Invalid archive type. Values tar or zip allowed";;
       process_exit 1
  else mret tt.

Definition validCompressLevels : list number :=
  map of_Z [0; 1; 2; 3; 4; 5; 6; 7; 8; 9]%Z.

Definition validateCompressLevel (value : option number) : Proc unit :=
  match value with
  | Some v =>
      if negb (some (fun p => number_strict_eq p v) validCompressLevels)
      then console_error "Invalid compression level. Values 0-9 allowed";;
           process_exit 1
      else mret tt
  | None => mret tt
  end.

(** The condition of the post-extraction check:
    [post-extract === undefined ||
     (post-extract.length === 0 && post-extract-file === undefined)]. *)
Definition noPostExtraction (options : OptionsType) : bool :=
  match post_extract options with
  | None => true
  | Some text =>
      (String.length text =? 0)%nat
      && match post_extract_file options with None => true | Some _ => false end
  end.

(** The callback of [options.files.map]. *)
Definition resolveEntry (resolvedRoot : option string) (p : string)
    : FileEntry :=
  let parsedPath := path_parse p in
  let mode := if String.eqb (ext parsedPath) ".sh" then mode_755 else mode_644 in
  let filename :=
    match resolvedRoot with
    | Some r => path_relative r p
    | None => base parsedPath
    end in
  {| filename := filename; path := path_resolve p; mode := mode |}.

(** The [forEach] that fills [entryCount]. *)
Definition countEntries (entries : list FileEntry)
    : JsMap.t (list string) :=
  fold_left
    (fun entryCount p =>
       JsMap.set (filename p)
         (default [] (JsMap.get (filename p) entryCount) ++ [path p])
         entryCount)
    entries JsMap.empty.

(** The lines printed for one entry of [entryCount]. *)
Definition reportEntry (entry : string * list string) : list string :=
  if negb (length (snd entry) =? 1)%nat
  then ("Archive would contain path " +:+ fst entry +:+ " "
          +:+ nat_to_string (length (snd entry)) +:+ " times")
       :: map (fun source => "  From " +:+ source) (snd entry)
  else [].

Fixpoint console_errors (lines : list string) : Proc unit :=
  match lines with
  | [] => mret tt
  | l :: ls => console_error l;; console_errors ls
  end.

(** Everything the asynchronous function does before it opens the
    output: the validation, the reading of the script files, the entry
    resolution and the duplicate check.  It returns the updated options
    and the entries. *)
Definition prepare (options : OptionsType)
    : Proc (OptionsType * list FileEntry) :=
  (if (length (files options) =? 0)%nat
   then console_error "No files to embed specified";; process_exit 1
   else mret tt);;
  (if noPostExtraction options
   then console_error "No post extraction script specified";; process_exit 1
   else mret tt);;
  validateArchiveType options (Some (type options));;
  validateCompressLevel (compress_level options);;
  options ←
    match pre_extract_file options with
    | Some file =>
        r ← readFile file;
        match r with
        | Some preExtract => mret (set_pre_extract options preExtract)
        | None =>
            console_error
              ("Failed to read pre-extraction script '" +:+ file +:+ "'");;
            process_exit 1
        end
    | None => mret options
    end;
  options ←
    match post_extract_file options with
    | Some file =>
        r ← readFile file;
        match r with
        | Some postExtract => mret (set_post_extract options postExtract)
        | None =>
            console_error
              ("Failed to read post-extraction script '" +:+ file +:+ "'");;
            process_exit 1
        end
    | None => mret options
    end;
  let resolvedRoot := path_resolve <$> root options in
  let entries := map (resolveEntry resolvedRoot) (files options) in
  let entryCount := countEntries entries in
  (if negb (JsMap.size entryCount =? length entries)%nat
   then console_error "Archive contains duplicate files";;
        console_errors (flat_map reportEntry entryCount);;
        process_exit 1
   else mret tt);;
  mret (options, entries).

Definition scriptConfig (options : OptionsType) : ScriptConfig :=
  {| archiveFormat := type options;
     compressionLevel := compress_level options;
     omitLibraryHeader := omit_header options;
     preExtraction := pre_extract options;
     postExtraction := post_extract options |}.

(** [try { await makeSelfExtractingScript(...) } catch (err)
    { process.exit(1) }]: after a resolved promise the function returns;
    a rejection is caught; an error event of the stream ends the process
    as an uncaught exception does, with status 1. *)
Definition assemble (config : ScriptConfig) (entries : list FileEntry)
    (outputStream : OutputStream) : Proc unit :=
  fun w =>
    match makeSelfExtractingScript config entries outputStream w with
    | (Resolved, w') => (Returned tt, w')
    | (Rejected, w') => (Exited 1, w')
    | (StreamError, w') => (Exited 1, w')
    end.

(** The asynchronous function. *)
Definition createArchive (options : OptionsType) : Proc unit :=
  '(options, entries) ← prepare options;
  outputStream ←
    match output options with
    | None => mret Stdout
    | Some file => createWriteStream file
    end;
  assemble (scriptConfig options) entries outputStream.

(** The script below line 101, for the options that line returns. *)
Definition main (options : OptionsType) : Proc unit :=
  if help options then showHelp else createArchive options.

(** The script from top to bottom: when line 101 throws, nothing below it
    runs. *)
Definition script (invocation : Invocation) : Proc unit :=
  match commandLineArgs invocation with
  | None => uncaughtException
  | Some options => main options
  end.

End Program.

(** ** A reference model of Node's POSIX [path]

    What Node documents for [path.posix]: a path is cut at every ['/'];
    [resolve] makes a relative path absolute against the working directory
    and normalises it (empty and ['.'] segments vanish, ['..'] removes the
    segment before it and does nothing at the root); [relative] resolves
    both paths, drops their common leading segments, climbs out of what is
    left of [from] and descends into what is left of [to]; [parse] takes the
    last non-empty segment as [base] and the part of [base] from its last
    dot as [ext], unless that dot starts [base] or [base] is ['..']. *)
Module Posix.

(** [s.split('/')]. *)
Fixpoint split (s : string) : list string :=
  match s with
  | EmptyString => [""]
  | String c s' =>
      if Ascii.eqb c "/"%char then "" :: split s'
      else match split s' with
           | [] => [String c ""]
           | seg :: segs => String c seg :: segs
           end
  end.

(** [l.join('/')]. *)
Fixpoint join (l : list string) : string :=
  match l with
  | [] => ""
  | [x] => x
  | x :: l' => x +:+ "/" +:+ join l'
  end.

Definition isAbsolute (p : string) : bool :=
  match p with
  | String c _ => Ascii.eqb c "/"%char
  | EmptyString => false
  end.

Definition normalizeStep (acc : list string) (seg : string) : list string :=
  if String.eqb seg "" || String.eqb seg "." then acc
  else if String.eqb seg ".." then removelast acc
  else acc ++ [seg].

(** The segments of the resolved path, below the root. *)
Definition segments (cwd p : string) : list string :=
  fold_left normalizeStep
    (split (if isAbsolute p then p else cwd +:+ "/" +:+ p)) [].

Definition resolve (cwd p : string) : string := "/" +:+ join (segments cwd p).

Fixpoint dropCommon (from to : list string) : list string * list string :=
  match from, to with
  | f :: from', t :: to' =>
      if String.eqb f t then dropCommon from' to' else (from, to)
  | _, _ => (from, to)
  end.

Definition relative (cwd from to : string) : string :=
  let '(up, down) := dropCommon (segments cwd from) (segments cwd to) in
  join (replicate (length up) ".." ++ down).

Definition basename (p : string) : string :=
  List.last (filter (fun seg => negb (String.eqb seg "")) (split p)) "".

(** The index of the last ['.'] of [s]. *)
Fixpoint lastDot (s : string) : option nat :=
  match s with
  | EmptyString => None
  | String c s' =>
      match lastDot s' with
      | Some i => Some (S i)
      | None => if Ascii.eqb c "."%char then Some 0%nat else None
      end
  end.

Definition extname (b : string) : string :=
  match lastDot b with
  | None => ""
  | Some 0%nat => ""
  | Some i =>
      if String.eqb b ".." then ""
      else String.substring i (String.length b - i) b
  end.

Definition parse (p : string) : ParsedPath :=
  {| base := basename p; ext := extname (basename p) |}.

(** The [path] module of a process whose working directory is [cwd]. *)
Definition module (cwd : string) : PathModule :=
  {| path_resolve := resolve cwd;
     path_relative := relative cwd;
     path_parse := parse |}.

End Posix.

(** ** Specification vocabulary *)

(** The names of a list in the order of their first occurrence. *)
Definition firstOccurrences (names : list string) : list string :=
  fold_left (fun acc n => if decide (n ∈ acc) then acc else acc ++ [n])
    names [].

(** The source paths of the entries called [n], in input order. *)
Definition sources (n : string) (entries : list FileEntry) : list string :=
  path <$> filter (fun e => filename e = n) entries.

(** The entry names that two or more entries share. *)
Definition collidingNames (entries : list FileEntry) : list string :=
  filter (fun n => 2 <= length (sources n entries))
    (firstOccurrences (filename <$> entries)).

(** The report for one colliding name: its count, then its sources. *)
Definition collisionLines (entries : list FileEntry) (n : string)
    : list string :=
  ("Archive would contain path " +:+ n +:+ " "
     +:+ nat_to_string (length (sources n entries)) +:+ " times")
  :: map (fun source => "  From " +:+ source) (sources n entries).

(** ** Valid requests *)

(** [v] is one of the integers 0 to 9. *)
Definition isLevel (v : number) : Prop :=
  exists k : Z, (0 <= k <= 9)%Z /\
    match v with Finite q => (q == inject_Z k)%Q | _ => False end.

(** Whether [validateCompressLevel] refuses a value. *)
Definition levelRejected (value : option number) : bool :=
  match value with
  | Some v => negb (some (fun p => number_strict_eq p v) validCompressLevels)
  | None => false
  end.

Section Requests.
Context {Path : PathModule}.

(** The entries of a request: every input path resolved. *)
Definition entriesOf (options : OptionsType) : list FileEntry :=
  map (resolveEntry (path_resolve <$> root options)) (files options).

Definition readable (w : World) (file : option string) : Prop :=
  forall f, file = Some f -> is_Some (disk w !! f).

(** The checks made before the entries are resolved. *)
Definition checksBeforeEntries (options : OptionsType) (w : World) : Prop :=
  files options <> []
  /\ noPostExtraction options = false
  /\ (type options = "tar" \/ type options = "zip")
  /\ (forall v, compress_level options = Some v -> isLevel v)
  /\ readable w (pre_extract_file options)
  /\ readable w (post_extract_file options).

(** A request that passes every check of the program. *)
Definition validRequest (options : OptionsType) (w : World) : Prop :=
  checksBeforeEntries options w
  /\ NoDup (filename <$> entriesOf options).

(** The script a request ends up with: the file's content when a script
    file is named, the inline text otherwise. *)
Definition scriptText (file inline : option string) (w : World)
    : option string :=
  match file with
  | Some f => disk w !! f
  | None => inline
  end.

Definition loadedOptions (options : OptionsType) (w : World) : OptionsType :=
  {| type := type options; compress_level := compress_level options;
     pre_extract :=
       scriptText (pre_extract_file options) (pre_extract options) w;
     post_extract :=
       scriptText (post_extract_file options) (post_extract options) w;
     pre_extract_file := pre_extract_file options;
     post_extract_file := post_extract_file options;
     omit_header := omit_header options; files := files options;
     root := root options; output := output options;
     help := help options |}.

Definition scriptReads (options : OptionsType) : list string :=
  option_list (pre_extract_file options)
  ++ option_list (post_extract_file options).

(** The lines of the duplicate report. *)
Definition duplicateReport (options : OptionsType) : list string :=
  "Archive contains duplicate files"
  :: flat_map (collisionLines (entriesOf options))
       (collidingNames (entriesOf options)).

(** The three ways [prepare] ends: a valid request returns the loaded
    options and the entries after reading the script files; a request
    that fails an early check exits with status 1 after some reads and one
    error message; a request whose entries collide exits with status 1
    after the reads and the duplicate report.  The disk is never
    touched. *)
Inductive PrepareSpec (options : OptionsType) (w : World)
    : Outcome (OptionsType * list FileEntry) * World -> Prop :=
  | prepare_accepts :
      validRequest options w ->
      PrepareSpec options w
        (Returned (loadedOptions options w, entriesOf options),
         {| disk := disk w;
            trace := trace w ++ map ReadFile (scriptReads options) |})
  | prepare_rejects_early (reads : list string) (msg : string) :
      ~ checksBeforeEntries options w ->
      PrepareSpec options w
        (Exited 1,
         {| disk := disk w;
            trace := trace w ++ map ReadFile reads ++ [ConsoleError msg] |})
  | prepare_rejects_duplicates :
      checksBeforeEntries options w ->
      ~ NoDup (filename <$> entriesOf options) ->
      PrepareSpec options w
        (Exited 1,
         {| disk := disk w;
            trace := trace w ++ map ReadFile (scriptReads options)
                       ++ map ConsoleError (duplicateReport options) |}).

(** The entry name the program gives to an input path. *)
Definition entryName (options : OptionsType) (p : string) : string :=
  filename (resolveEntry (path_resolve <$> root options) p).
End Requests.

(** The world after the script files were read. *)
Definition afterReads (options : OptionsType) (w : World) : World :=
  {| disk := disk w;
     trace := trace w ++ map ReadFile (scriptReads options) |}.

(** The stream the assembler writes to, and the world once the program
    has asked for it: the disk is as it was. *)
Definition openedOutput (options : OptionsType) (w : World)
    : OutputStream * World :=
  match output options with
  | None => (Stdout, w)
  | Some file =>
      (WriteStream file,
       {| disk := disk w; trace := trace w ++ [CreateWriteStream file] |})
  end.

(** The world after one error message. *)
Definition afterError (msg : string) (w : World) : World :=
  {| disk := disk w; trace := trace w ++ [ConsoleError msg] |}.

(** The characters of a string. *)
Fixpoint chars (s : string) : list ascii :=
  match s with
  | EmptyString => []
  | String c s' => c :: chars s'
  end.

(** ** Sample data *)

Module Sample.
(** The [path] module of a process started in [/work]. *)
Definition posix : PathModule := Posix.module "/work".

Definition usage : string := "make-self-extracting-bin".

(** A small machine: its files by absolute path.  A name is resolved
    against [/work] before it is looked up, so two spellings of a path
    reach the same file. *)
Definition mount (files : gmap string string) : Disk :=
  fun name => files !! Posix.resolve "/work" name.

(** The directories of the machine, by their segments. *)
Definition directories : list (list string) :=
  [[]; ["work"]; ["proj"]; ["other"]].

(** A file can be opened for writing when its directory exists. *)
Definition openable (file : string) : bool :=
  bool_decide (removelast (Posix.segments "/work" file) ∈ directories).

(** Opening with flag ['w']: the file is there afterwards, and empty. *)
Definition truncated (file : string) (d : Disk) : Disk :=
  fun name =>
    if String.eqb (Posix.resolve "/work" name) (Posix.resolve "/work" file)
    then Some EmptyString
    else d name.

(** A stand-in for the wait for the assembler.  The file of a named
    output is opened first: if that fails nothing is created and the wait
    ends with the stream's error; otherwise the file is created or
    truncated.  Then the promise rejects when the file of an entry cannot
    be read and resolves otherwise.  Nothing else is written. *)
Definition readingAssembler (config : ScriptConfig)
    (entries : list FileEntry) (stream : OutputStream) (w : World)
    : Settled * World :=
  let settle (w' : World) :=
    (if forallb (fun e => bool_decide (is_Some (disk w' !! path e))) entries
     then Resolved else Rejected, w') in
  match stream with
  | Stdout => settle w
  | WriteStream file =>
      if openable file
      then settle {| disk := truncated file (disk w); trace := trace w |}
      else (StreamError, w)
  end.

Definition world : World :=
  {| disk := mount {[ "/work/a.sh" := "echo a";
                      "/work/b.txt" := "b";
                      "/work/post.sh" := "echo from file";
                      "/work/out.sh" := "old output" ]};
     trace := [] |}.

(** [--post-extract "echo done" --output out.sh a.sh b.txt]. *)
Definition request : OptionsType :=
  {| type := "tar"; compress_level := None; pre_extract := None;
     post_extract := Some "echo done"; pre_extract_file := None;
     post_extract_file := None; omit_header := None;
     files := ["a.sh"; "b.txt"]; root := None; output := Some "out.sh";
     help := false |}.

(** [--help --type rar --compress-level 12], no files, no script. *)
Definition helpRequest : OptionsType :=
  {| type := "rar"; compress_level := Some (of_Z 12); pre_extract := None;
     post_extract := None; pre_extract_file := None;
     post_extract_file := None; omit_header := None;
     files := []; root := None; output := Some "out.sh";
     help := true |}.

(** [--post-extract "echo done"] and no file. *)
Definition noFilesRequest : OptionsType :=
  {| type := "tar"; compress_level := None; pre_extract := None;
     post_extract := Some "echo done"; pre_extract_file := None;
     post_extract_file := None; omit_header := None;
     files := []; root := None; output := None; help := false |}.
End Sample.

Module SampleArgs.
(** [--post-extract "echo done" a.sh]. *)
Definition plain : CommandLine :=
  {| arg_type := None; arg_compress_level := None; arg_pre_extract := None;
     arg_post_extract := Some "echo done"; arg_pre_extract_file := None;
     arg_post_extract_file := None; arg_omit_header := None;
     arg_files := Some ["a.sh"]; arg_root := None; arg_output := None;
     arg_help := None |}.

(** [--help --type rar --compress-level 12]: no files, no script. *)
Definition helpAndBadType : CommandLine :=
  {| arg_type := Some "rar"; arg_compress_level := Some (of_Z 12);
     arg_pre_extract := None; arg_post_extract := None;
     arg_pre_extract_file := None; arg_post_extract_file := None;
     arg_omit_header := None; arg_files := None; arg_root := None;
     arg_output := Some "out.sh"; arg_help := Some true |}.

(** [--type rar --post-extract "echo done" a.sh]. *)
Definition rar : CommandLine :=
  {| arg_type := Some "rar"; arg_compress_level := None;
     arg_pre_extract := None; arg_post_extract := Some "echo done";
     arg_pre_extract_file := None; arg_post_extract_file := None;
     arg_omit_header := None; arg_files := Some ["a.sh"]; arg_root := None;
     arg_output := Some "out.sh"; arg_help := None |}.
End SampleArgs.

Module SampleLevels.
(** [--compress-level 12 --post-extract "echo done" a.sh]. *)
Definition twelve : OptionsType :=
  {| type := "tar"; compress_level := Some (of_Z 12); pre_extract := None;
     post_extract := Some "echo done"; pre_extract_file := None;
     post_extract_file := None; omit_header := None;
     files := ["a.sh"]; root := None; output := Some "out.sh";
     help := false |}.

(** [5 / 2], what [--compress-level 2.5] gives. *)
Definition half : number := Finite (5 # 2).
End SampleLevels.

Module SampleScripts.
(** [--post-extract-file post.sh --output out.sh a.sh]. *)
Definition fileOnly : OptionsType :=
  {| type := "tar"; compress_level := None; pre_extract := None;
     post_extract := None; pre_extract_file := None;
     post_extract_file := Some "post.sh"; omit_header := None;
     files := ["a.sh"]; root := None; output := Some "out.sh";
     help := false |}.

(** The same with an empty [--post-extract] text added. *)
Definition emptyInlineAndFile : OptionsType :=
  {| type := "tar"; compress_level := None; pre_extract := None;
     post_extract := Some ""; pre_extract_file := None;
     post_extract_file := Some "post.sh"; omit_header := None;
     files := ["a.sh"]; root := None; output := Some "out.sh";
     help := false |}.
End SampleScripts.

Module SampleOutputs.

(** [--post-extract "echo done" --output nodir/out.sh a.sh]: every
    check passes, and the directory of the output does not exist. *)
Definition noDirectory : OptionsType :=
  {| type := "tar"; compress_level := None; pre_extract := None;
     post_extract := Some "echo done"; pre_extract_file := None;
     post_extract_file := None; omit_header := None;
     files := ["a.sh"]; root := None; output := Some "nodir/out.sh";
     help := false |}.

End SampleOutputs.

Module SampleDuplicates.
(** [--post-extract "echo done" --output out.sh
     src/a.txt b.txt out/a.txt docs/b.txt c.txt lib/a.txt]. *)
Definition request : OptionsType :=
  {| type := "tar"; compress_level := None; pre_extract := None;
     post_extract := Some "echo done"; pre_extract_file := None;
     post_extract_file := None; omit_header := None;
     files := ["src/a.txt"; "b.txt"; "out/a.txt"; "docs/b.txt"; "c.txt";
               "lib/a.txt"];
     root := None; output := Some "out.sh"; help := false |}.
End SampleDuplicates.

Module SampleRoots.
(** [--root /proj --post-extract "echo done" /proj/src/a.txt
     /proj/out/a.txt /other/b.txt]. *)
Definition request : OptionsType :=
  {| type := "tar"; compress_level := None; pre_extract := None;
     post_extract := Some "echo done"; pre_extract_file := None;
     post_extract_file := None; omit_header := None;
     files := ["/proj/src/a.txt"; "/proj/out/a.txt"; "/other/b.txt"];
     root := Some "/proj"; output := None; help := false |}.

(** [--post-extract "echo done" bin/install.sh bin/INSTALL.SH notes.txt]. *)
Definition scripts : OptionsType :=
  {| type := "tar"; compress_level := None; pre_extract := None;
     post_extract := Some "echo done"; pre_extract_file := None;
     post_extract_file := None; omit_header := None;
     files := ["bin/install.sh"; "bin/INSTALL.SH"; "notes.txt"];
     root := None; output := None; help := false |}.
End SampleRoots.

Module SampleFiles.
(** A disk with script files, one of them empty. *)
Definition world : World :=
  {| disk := Sample.mount {[ "/work/a.sh" := "echo a";
                             "/work/pre.sh" := "echo before";
                             "/work/post.sh" := "echo after";
                             "/work/empty.sh" := EmptyString ]};
     trace := [] |}.

(** [--pre-extract "echo inline" --pre-extract-file pre.sh
     --post-extract "echo done" a.sh]. *)
Definition preFile : OptionsType :=
  {| type := "zip"; compress_level := Some (of_Z 0);
     pre_extract := Some "echo inline"; post_extract := Some "echo done";
     pre_extract_file := Some "pre.sh"; post_extract_file := None;
     omit_header := Some true; files := ["a.sh"]; root := None;
     output := None; help := false |}.

(** [--post-extract "echo done" a.sh]: no pre-extraction script at all. *)
Definition noPre : OptionsType :=
  {| type := "tar"; compress_level := None; pre_extract := None;
     post_extract := Some "echo done"; pre_extract_file := None;
     post_extract_file := None; omit_header := None; files := ["a.sh"];
     root := None; output := None; help := false |}.

(** [--pre-extract-file nope.sh --post-extract-file gone.sh
     --post-extract "echo done" a.sh]: neither script file exists. *)
Definition missingPre : OptionsType :=
  {| type := "tar"; compress_level := None; pre_extract := None;
     post_extract := Some "echo done"; pre_extract_file := Some "nope.sh";
     post_extract_file := Some "gone.sh"; omit_header := None;
     files := ["a.sh"]; root := None; output := Some "out.sh";
     help := false |}.

(** [--pre-extract-file pre.sh --post-extract-file gone.sh
     --post-extract "echo done" a.sh]. *)
Definition missingPost : OptionsType :=
  {| type := "tar"; compress_level := None; pre_extract := None;
     post_extract := Some "echo done"; pre_extract_file := Some "pre.sh";
     post_extract_file := Some "gone.sh"; omit_header := None;
     files := ["a.sh"]; root := None; output := Some "out.sh";
     help := false |}.

(** An empty [--post-extract] text and nothing else for the script. *)
Definition emptyInline : OptionsType :=
  {| type := "tar"; compress_level := None; pre_extract := None;
     post_extract := Some EmptyString; pre_extract_file := None;
     post_extract_file := None; omit_header := None; files := ["a.sh"];
     root := None; output := None; help := false |}.

(** [--post-extract "echo done" --post-extract-file empty.sh a.sh]. *)
Definition emptyFile : OptionsType :=
  {| type := "tar"; compress_level := None; pre_extract := None;
     post_extract := Some "echo done"; pre_extract_file := None;
     post_extract_file := Some "empty.sh"; omit_header := None;
     files := ["a.sh"]; root := None; output := None; help := false |}.

(** [--post-extract "echo done" --output /work/a.sh a.sh]: the output is
    the file to embed. *)
Definition outputIsInput : OptionsType :=
  {| type := "tar"; compress_level := None; pre_extract := None;
     post_extract := Some "echo done"; pre_extract_file := None;
     post_extract_file := None; omit_header := None; files := ["a.sh"];
     root := None; output := Some "/work/a.sh"; help := false |}.

(** [--post-extract "x" --post-extract-file post.sh --output post.sh
     a.sh]: the output is the script file. *)
Definition outputIsScript : OptionsType :=
  {| type := "tar"; compress_level := None; pre_extract := None;
     post_extract := Some "x"; pre_extract_file := None;
     post_extract_file := Some "post.sh"; omit_header := None;
     files := ["a.sh"]; root := None; output := Some "post.sh";
     help := false |}.

(** [--type rar --compress-level 12 a.sh]: three things wrong. *)
Definition allWrong : OptionsType :=
  {| type := "rar"; compress_level := Some (of_Z 12); pre_extract := None;
     post_extract := None; pre_extract_file := Some "nope.sh";
     post_extract_file := None; omit_header := None; files := ["a.sh"];
     root := None; output := None; help := false |}.

(** The empty command line. *)
Definition bare : CommandLine :=
  {| arg_type := None; arg_compress_level := None; arg_pre_extract := None;
     arg_post_extract := None; arg_pre_extract_file := None;
     arg_post_extract_file := None; arg_omit_header := None;
     arg_files := None; arg_root := None; arg_output := None;
     arg_help := None |}.
End SampleFiles.

(** ** The insertion-ordered map *)

Section JsMapFacts.
Context {V : Type}.
Implicit Types (m : JsMap.t V) (k : string) (v : V).

Lemma JsMap_get_tabulate (g : string -> V) (keys : list string) k :
  JsMap.get k (map (fun n => (n, g n)) keys)
  = if decide (k ∈ keys) then Some (g k) else None.
Proof.
  induction keys as [|n keys IH]; simpl.
  - done.
  - destruct (String.eqb n k) eqn:E.
    + apply String.eqb_eq in E as ->.
      rewrite decide_True; [done | left].
    + apply String.eqb_neq in E. rewrite IH.
      destruct (decide (k ∈ keys)) as [Hin|Hin].
      * rewrite decide_True; [done | by right].
      * rewrite decide_False; [done |].
        intros [->|?]%elem_of_cons; done.
Qed.

Lemma JsMap_set_tabulate_new (g : string -> V) (keys : list string) k v :
  k ∉ keys ->
  JsMap.set k v (map (fun n => (n, g n)) keys)
  = map (fun n => (n, g n)) keys ++ [(k, v)].
Proof.
  induction keys as [|n keys IH]; simpl; intros Hk; [done |].
  apply not_elem_of_cons in Hk as [Hne Hk].
  destruct (String.eqb n k) eqn:E.
  - apply String.eqb_eq in E. congruence.
  - by rewrite IH.
Qed.

Lemma JsMap_set_tabulate_old (g : string -> V) (keys : list string) k v :
  NoDup keys -> k ∈ keys ->
  JsMap.set k v (map (fun n => (n, g n)) keys)
  = map (fun n => (n, if String.eqb n k then v else g n)) keys.
Proof.
  induction keys as [|n keys IH]; simpl; intros Hnd Hk.
  - by apply elem_of_nil in Hk.
  - apply NoDup_cons in Hnd as [Hn Hnd].
    destruct (String.eqb n k) eqn:E.
    + apply String.eqb_eq in E as ->. f_equal.
      apply map_ext_in. intros a Ha.
      destruct (String.eqb a k) eqn:E'; [|done].
      apply String.eqb_eq in E' as ->.
      by apply list_elem_of_In in Ha.
    + apply String.eqb_neq in E.
      apply elem_of_cons in Hk as [->|Hk]; [done |].
      by rewrite IH.
Qed.
End JsMapFacts.

(** ** First occurrences and sources *)

Lemma firstOccurrences_snoc (l : list string) (x : string) :
  firstOccurrences (l ++ [x])
  = if decide (x ∈ firstOccurrences l) then firstOccurrences l
    else firstOccurrences l ++ [x].
Proof. unfold firstOccurrences. by rewrite fold_left_app. Qed.

Lemma elem_of_firstOccurrences (l : list string) (x : string) :
  x ∈ firstOccurrences l <-> x ∈ l.
Proof.
  induction l as [|y l IH] using rev_ind; [done |].
  rewrite firstOccurrences_snoc, elem_of_app, list_elem_of_singleton.
  case_decide as Hy.
  - rewrite IH. split; [by left | intros [?| ->]; [done | by apply IH]].
  - by rewrite elem_of_app, list_elem_of_singleton, IH.
Qed.

Lemma NoDup_firstOccurrences (l : list string) : NoDup (firstOccurrences l).
Proof.
  induction l as [|y l IH] using rev_ind; [constructor |].
  rewrite firstOccurrences_snoc. case_decide as Hy; [done |].
  apply NoDup_app. split_and!; [done | | apply NoDup_singleton].
  intros x Hx ->%list_elem_of_singleton. done.
Qed.

Lemma length_firstOccurrences_le (l : list string) :
  length (firstOccurrences l) <= length l.
Proof.
  induction l as [|y l IH] using rev_ind; [done |].
  rewrite firstOccurrences_snoc, length_app. simpl.
  case_decide; [lia |]. rewrite length_app. simpl. lia.
Qed.

Lemma length_firstOccurrences_eq (l : list string) :
  length (firstOccurrences l) = length l <-> NoDup l.
Proof.
  split.
  - induction l as [|y l IH] using rev_ind; [constructor |].
    rewrite firstOccurrences_snoc, length_app. simpl.
    pose proof (length_firstOccurrences_le l) as Hle.
    case_decide as Hy; [lia |]. rewrite length_app. simpl. intros Hlen.
    apply NoDup_app. split_and!; [apply IH; lia | | apply NoDup_singleton].
    intros x Hx ->%list_elem_of_singleton.
    by apply Hy, elem_of_firstOccurrences.
  - intros Hnd. induction l as [|y l IH] using rev_ind; [done |].
    apply NoDup_app in Hnd as (Hl & Hy & _).
    rewrite firstOccurrences_snoc, decide_False.
    + rewrite !length_app, IH by done. done.
    + intros Hin. apply (elem_of_firstOccurrences l y) in Hin.
      apply (Hy y Hin), list_elem_of_singleton. done.
Qed.

Lemma sources_snoc (n : string) (es : list FileEntry) (e : FileEntry) :
  sources n (es ++ [e])
  = if String.eqb n (filename e) then sources n es ++ [path e]
    else sources n es.
Proof.
  unfold sources. rewrite filter_app, fmap_app.
  destruct (String.eqb n (filename e)) eqn:E.
  - apply String.eqb_eq in E. by rewrite filter_cons_True.
  - apply String.eqb_neq in E. rewrite filter_cons_False by done.
    simpl. by rewrite app_nil_r.
Qed.

Lemma sources_absent (n : string) (es : list FileEntry) :
  n ∉ filename <$> es -> sources n es = [].
Proof.
  unfold sources. induction es as [|e es IH]; [done |].
  rewrite fmap_cons, not_elem_of_cons. intros [Hne Hn].
  rewrite filter_cons_False by done. by apply IH.
Qed.

Lemma sources_present (n : string) (es : list FileEntry) :
  n ∈ filename <$> es -> 1 <= length (sources n es).
Proof.
  unfold sources. induction es as [|e es IH].
  - by intros ?%elem_of_nil.
  - rewrite fmap_cons. intros Hin.
    destruct (decide (filename e = n)) as [He|He].
    + rewrite filter_cons_True by done. simpl. lia.
    + rewrite filter_cons_False by done.
      apply elem_of_cons in Hin as [->|Hin]; [done | by apply IH].
Qed.

(** ** The duplicate check *)

Lemma countEntries_snoc (es : list FileEntry) (e : FileEntry) :
  countEntries (es ++ [e])
  = JsMap.set (filename e)
      (default [] (JsMap.get (filename e) (countEntries es)) ++ [path e])
      (countEntries es).
Proof. unfold countEntries. by rewrite fold_left_app. Qed.

(** [entryCount] holds, for each name in first-occurrence order, the paths
    of the entries with that name. *)
Lemma countEntries_closed (es : list FileEntry) :
  countEntries es
  = map (fun n => (n, sources n es)) (firstOccurrences (filename <$> es)).
Proof.
  induction es as [|e es IH] using rev_ind; [done |].
  rewrite countEntries_snoc, IH, JsMap_get_tabulate.
  rewrite fmap_app. change (filename <$> [e]) with [filename e].
  rewrite firstOccurrences_snoc.
  case_decide as Hin; simpl.
  - rewrite JsMap_set_tabulate_old by (done || apply NoDup_firstOccurrences).
    apply map_ext. intros n. rewrite sources_snoc.
    destruct (String.eqb n (filename e)) eqn:E; [|done].
    by apply String.eqb_eq in E as ->.
  - rewrite JsMap_set_tabulate_new by done.
    rewrite map_app. simpl. f_equal.
    + apply map_ext_in. intros n Hn%list_elem_of_In. rewrite sources_snoc.
      destruct (String.eqb n (filename e)) eqn:E; [|done].
      apply String.eqb_eq in E as ->. done.
    + rewrite sources_snoc, String.eqb_refl, sources_absent; [done |].
      intros Hn. by apply Hin, elem_of_firstOccurrences.
Qed.

(** The size test of the program detects exactly the repeated names. *)
Lemma countEntries_size (es : list FileEntry) :
  (JsMap.size (countEntries es) =? length es)%nat = true
  <-> NoDup (filename <$> es).
Proof.
  unfold JsMap.size. rewrite countEntries_closed, length_map, Nat.eqb_eq.
  rewrite <- length_firstOccurrences_eq. by rewrite length_fmap.
Qed.

Lemma reportEntry_lines (es : list FileEntry) (n : string) :
  n ∈ filename <$> es ->
  reportEntry (n, sources n es)
  = if decide (2 <= length (sources n es)) then collisionLines es n else [].
Proof.
  intros Hn%sources_present. unfold reportEntry, collisionLines. simpl.
  destruct (Nat.eqb_spec (length (sources n es)) 1) as [E|E]; simpl.
  - rewrite decide_False by lia. done.
  - rewrite decide_True by lia. done.
Qed.

(** What the program prints after the headline: for each colliding name,
    in first-occurrence order, its count and its sources. *)
Lemma report_closed (es : list FileEntry) :
  flat_map reportEntry (countEntries es)
  = flat_map (collisionLines es) (collidingNames es).
Proof.
  rewrite countEntries_closed. unfold collidingNames.
  assert (Hsub : forall n, n ∈ firstOccurrences (filename <$> es) ->
                           n ∈ filename <$> es)
    by (intros n; apply elem_of_firstOccurrences).
  induction (firstOccurrences (filename <$> es)) as [|n keys IH]; [done |].
  simpl. rewrite reportEntry_lines by (apply Hsub; left).
  rewrite IH by (intros k Hk; apply Hsub; by right).
  case_decide as Hc.
  - rewrite filter_cons_True by done. done.
  - rewrite filter_cons_False by done. done.
Qed.

Lemma elem_of_collidingNames (es : list FileEntry) (n : string) :
  n ∈ collidingNames es
  <-> 2 <= length (filter (fun e => filename e = n) es).
Proof.
  unfold collidingNames. rewrite list_elem_of_filter, elem_of_firstOccurrences.
  unfold sources. rewrite length_fmap. split; [by intros [? _] |].
  intros Hlen. split; [done |].
  destruct (filter (fun e => filename e = n) es) as [|e l] eqn:E;
    [simpl in Hlen; lia |].
  assert (He : e ∈ filter (fun e => filename e = n) es) by (rewrite E; left).
  apply list_elem_of_filter in He as [<- He].
  by apply list_elem_of_fmap_2.
Qed.

Lemma NoDup_collidingNames (es : list FileEntry) : NoDup (collidingNames es).
Proof. apply NoDup_filter, NoDup_firstOccurrences. Qed.

(** ** The checks *)

Lemma validCompressLevels_spec (v : number) :
  some (fun p => number_strict_eq p v) validCompressLevels = true
  <-> isLevel v.
Proof.
  unfold some, isLevel. rewrite existsb_exists. split.
  - intros (p & Hp & Heq). unfold validCompressLevels in Hp.
    apply in_map_iff in Hp as (k & <- & Hk). exists k. split.
    + simpl in Hk. intuition lia.
    + destruct v as [q| |]; simpl in Heq; try discriminate.
      apply Qeq_bool_iff in Heq. by symmetry.
  - intros (k & Hk & Hv). exists (of_Z k). split.
    + unfold validCompressLevels. apply in_map.
      assert (k = 0 \/ k = 1 \/ k = 2 \/ k = 3 \/ k = 4 \/ k = 5 \/ k = 6
              \/ k = 7 \/ k = 8 \/ k = 9)%Z as Hcases by lia.
      simpl. intuition auto.
    + destruct v as [q| |]; try done. simpl.
      apply Qeq_bool_iff. by symmetry.
Qed.

Lemma validArchiveTypes_spec (t : string) :
  some (fun p => String.eqb p t) validArchiveTypes = true
  <-> t = "tar" \/ t = "zip".
Proof.
  unfold some, validArchiveTypes. cbn [existsb].
  rewrite !orb_true_iff, !String.eqb_eq. intuition (auto; discriminate).
Qed.

Lemma validateCompressLevel_guard (value : option number) :
  validateCompressLevel value
  = if levelRejected value
    then console_error "Invalid compression level. Values 0-9 allowed";;
         process_exit 1
    else mret tt.
Proof. by destruct value. Qed.

Lemma levelRejected_spec (value : option number) :
  levelRejected value = false <-> forall v, value = Some v -> isLevel v.
Proof.
  destruct value as [v|]; cbn [levelRejected]; [|by split].
  rewrite negb_false_iff, validCompressLevels_spec. split.
  - by intros ? ? [= <-].
  - auto.
Qed.

(** ** Running the program *)

Lemma console_errors_run (lines : list string) (w : World) :
  console_errors lines w
  = (Returned tt,
     {| disk := disk w; trace := trace w ++ map ConsoleError lines |}).
Proof.
  revert w. induction lines as [|l ls IH]; intros w; simpl.
  - unfold mret, Proc_ret. rewrite app_nil_r. by destruct w.
  - unfold mbind, Proc_bind, console_error, perform. rewrite IH. simpl.
    by rewrite <- app_assoc.
Qed.

Lemma bind_run {A B : Type} (m : Proc A) (f : A -> Proc B) (w : World) :
  (m ≫= f) w
  = match m w with
    | (Returned a, w') => f a w'
    | (Exited c, w') => (Exited c, w')
    end.
Proof. reflexivity. Qed.

(** A check that prints a message and exits when its condition holds. *)
Lemma guard_run {B : Type} (b : bool) (msg : string) (k : Proc B) (w : World) :
  ((if b then console_error msg;; process_exit 1 else mret tt);; k) w
  = if b
    then (Exited 1,
          {| disk := disk w; trace := trace w ++ [ConsoleError msg] |})
    else k w.
Proof. by destruct b. Qed.

Section Runs.
Context {Path : PathModule}.
Variable usage : string.
Variable makeSelfExtractingScript :
  ScriptConfig -> list FileEntry -> OutputStream -> World -> Settled * World.

Lemma prepare_rejects_early' (options : OptionsType) (w w' : World)
    (reads : list string) (msg : string) :
  ~ checksBeforeEntries options w ->
  w' = {| disk := disk w;
          trace := trace w ++ map ReadFile reads ++ [ConsoleError msg] |} ->
  PrepareSpec options w (Exited 1, w').
Proof. intros ? ->. by constructor. Qed.

Lemma prepare_rejects_duplicates' (options : OptionsType) (w w' : World) :
  checksBeforeEntries options w ->
  ~ NoDup (filename <$> entriesOf options) ->
  w' = {| disk := disk w;
          trace := trace w ++ map ReadFile (scriptReads options)
                     ++ map ConsoleError (duplicateReport options) |} ->
  PrepareSpec options w (Exited 1, w').
Proof. intros ? ? ->. by constructor. Qed.

(** Reading one script file, or keeping the inline text. *)
Lemma load_run {B : Type} (file : option string) (what : string)
    (update : OptionsType -> string -> OptionsType) (o : OptionsType)
    (k : OptionsType -> Proc B) (w : World) :
  (match file with
   | Some f =>
       r ← readFile f;
       match r with
       | Some text => mret (update o text)
       | None => console_error (what +:+ f +:+ "'");; process_exit 1
       end
   | None => mret o
   end ≫= k) w
  = match file with
    | Some f =>
        match disk w !! f with
        | Some text =>
            k (update o text)
              {| disk := disk w; trace := trace w ++ [ReadFile f] |}
        | None =>
            (Exited 1,
             {| disk := disk w;
                trace := trace w ++ [ReadFile f]
                           ++ [ConsoleError (what +:+ f +:+ "'")] |})
        end
    | None => k o w
    end.
Proof.
  destruct file as [f|]; [|done].
  rewrite !bind_run. unfold readFile at 1.
  destruct (disk w !! f); [done |].
  unfold mbind, Proc_bind, console_error, perform, process_exit. cbn.
  by rewrite <- app_assoc.
Qed.

(** The duplicate check and the return of [prepare]. *)
Lemma duplicates_run (o : OptionsType) (w : World) :
  ((if negb (JsMap.size
               (countEntries
                  (map (resolveEntry (path_resolve <$> root o)) (files o)))
             =? length
                  (map (resolveEntry (path_resolve <$> root o)) (files o)))%nat
    then console_error "Archive contains duplicate files";;
         console_errors
           (flat_map reportEntry
              (countEntries
                 (map (resolveEntry (path_resolve <$> root o)) (files o))));;
         process_exit 1
    else mret tt);;
   mret (o, map (resolveEntry (path_resolve <$> root o)) (files o))) w
  = if decide (NoDup (filename <$> entriesOf o))
    then (Returned (o, entriesOf o), w)
    else (Exited 1,
          {| disk := disk w;
             trace := trace w
               ++ ConsoleError "Archive contains duplicate files"
                  :: map ConsoleError
                       (flat_map (collisionLines (entriesOf o))
                          (collidingNames (entriesOf o))) |}).
Proof.
  fold (entriesOf o).
  pose proof (countEntries_size (entriesOf o)) as Hsize.
  destruct (JsMap.size _ =? _)%nat; cbn [negb].
  - rewrite decide_True by by apply Hsize. done.
  - rewrite decide_False by (intros ?%Hsize; done).
    rewrite !bind_run. unfold console_error at 1, perform. cbn beta iota.
    rewrite bind_run, console_errors_run, report_closed. cbn.
    by rewrite <- app_assoc.
Qed.

Lemma prepare_accepts' (options o : OptionsType) (es : list FileEntry)
    (w w' : World) :
  validRequest options w ->
  o = loadedOptions options w ->
  es = entriesOf options ->
  w' = {| disk := disk w;
          trace := trace w ++ map ReadFile (scriptReads options) |} ->
  PrepareSpec options w (Returned (o, es), w').
Proof. intros ? -> -> ->. by constructor. Qed.

Lemma prepare_spec (options : OptionsType) (w : World) :
  PrepareSpec options w (prepare options w).
Proof.
  unfold prepare. rewrite guard_run.
  destruct (files options) as [|p ps] eqn:Hfiles; cbn [length Nat.eqb].
  { apply (prepare_rejects_early' _ _ _ [] "No files to embed specified");
      [by intros (? & _) | done]. }
  rewrite guard_run.
  destruct (noPostExtraction options) eqn:Hpost.
  { apply (prepare_rejects_early' _ _ _ []
             "No post extraction script specified");
      [intros (_ & ? & _); congruence | done]. }
  unfold validateArchiveType. rewrite guard_run.
  destruct (some _ validArchiveTypes) eqn:Htype; cbn [negb].
  2:{ apply (prepare_rejects_early' _ _ _ []
               "Invalid archive type. Values tar or zip allowed");
        [| done].
      intros (_ & _ & Ht & _). apply validArchiveTypes_spec in Ht.
      congruence. }
  apply validArchiveTypes_spec in Htype.
  rewrite validateCompressLevel_guard, guard_run.
  destruct (levelRejected (compress_level options)) eqn:Hlevel.
  { apply (prepare_rejects_early' _ _ _ []
             "Invalid compression level. Values 0-9 allowed");
      [| done].
    intros (_ & _ & _ & Hl & _).
    pose proof (proj2 (levelRejected_spec _) Hl). congruence. }
  pose proof (proj1 (levelRejected_spec _) Hlevel) as Hlevel'.
  rewrite (load_run _ "Failed to read pre-extraction script '"
             set_pre_extract).
  assert (Hfiles' : files options <> []) by congruence.
  clear Hfiles Hlevel.
  destruct (pre_extract_file options) as [f1|] eqn:Hpre;
    [destruct (disk w !! f1) as [text1|] eqn:Hread1|].
  2:{ apply (prepare_rejects_early' _ _ _ [f1]
               ("Failed to read pre-extraction script '" +:+ f1 +:+ "'"));
        [| done].
      intros (_ & _ & _ & _ & Hr & _).
      destruct (Hr f1 Hpre) as [? ?]. congruence. }
  all: rewrite (load_run _ "Failed to read post-extraction script '"
                  set_post_extract).
  all: cbn [post_extract_file set_pre_extract disk trace].
  all: destruct (post_extract_file options) as [f2|] eqn:Hpost2;
    [destruct (disk w !! f2) as [text2|] eqn:Hread2|].
  all: try rewrite duplicates_run.
  all: unfold entriesOf;
    cbn [root files set_post_extract set_pre_extract];
    fold (entriesOf options).
  all: try case_decide.
  all: try assert (Hchecks : checksBeforeEntries options w)
      by (split_and!; try done;
          intros f Hf; rewrite ?Hpre, ?Hpost2 in Hf; simplify_eq;
          by eexists).
  all: match goal with
       | |- PrepareSpec _ _ (Returned _, _) =>
           apply prepare_accepts';
           [ by split
           | unfold loadedOptions, scriptText, set_post_extract,
               set_pre_extract;
             destruct options; cbn in Hpre, Hpost2 |- *; subst;
             by rewrite ?Hread1, ?Hread2
           | done
           | ]
       | Hdup : ~ NoDup _ |- _ =>
           apply prepare_rejects_duplicates'; [done | done |]
       | |- _ =>
           apply (prepare_rejects_early' _ _ _ (scriptReads options)
                    ("Failed to read post-extraction script '"
                       +:+ f2 +:+ "'"));
           [ intros (_ & _ & _ & _ & _ & Hr);
             destruct (Hr f2 Hpost2) as [? ?]; congruence
           | ]
       end.
  all: unfold scriptReads, duplicateReport; rewrite Hpre, Hpost2; cbn;
    rewrite <- ?app_assoc, ?app_nil_r; try reflexivity.
  by destruct w.
Qed.

Lemma main_help (options : OptionsType) (w : World) :
  help options = true ->
  main usage makeSelfExtractingScript options w
  = (Exited 0,
     {| disk := disk w; trace := trace w ++ [ConsoleLog usage] |}).
Proof. intros Hhelp. unfold main. by rewrite Hhelp. Qed.

Lemma main_no_help (options : OptionsType) (w : World) :
  help options = false ->
  main usage makeSelfExtractingScript options w
  = createArchive makeSelfExtractingScript options w.
Proof. intros Hhelp. unfold main. by rewrite Hhelp. Qed.

(** A valid request reaches the assembler, with the loaded scripts, the
    resolved entries and the output stream. *)
Lemma createArchive_valid (options : OptionsType) (w : World) :
  validRequest options w ->
  createArchive makeSelfExtractingScript options w
  = assemble makeSelfExtractingScript
      (scriptConfig (loadedOptions options w)) (entriesOf options)
      (fst (openedOutput options (afterReads options w)))
      (snd (openedOutput options (afterReads options w))).
Proof.
  intros Hvalid. unfold createArchive. rewrite bind_run.
  destruct (prepare_spec options w)
    as [_|reads msg Hinvalid|_ Hinvalid];
    [| by destruct Hinvalid, Hvalid | by destruct Hinvalid, Hvalid].
  cbn beta iota. rewrite bind_run. unfold openedOutput, afterReads.
  cbn [output loadedOptions].
  by destruct (output options).
Qed.

(** Any other request ends in [prepare]: exit status 1, some script-file
    reads, at least one error message, and the disk as it was. *)
Lemma createArchive_invalid (options : OptionsType) (w : World) :
  ~ validRequest options w ->
  exists reads msgs, msgs <> [] /\
    createArchive makeSelfExtractingScript options w
    = (Exited 1,
       {| disk := disk w;
          trace := trace w ++ map ReadFile reads
                           ++ map ConsoleError msgs |}).
Proof.
  intros Hinvalid. unfold createArchive. rewrite bind_run.
  destruct (prepare_spec options w) as [Hvalid|reads msg _|_ _];
    [done | by exists reads, [msg] |].
  by exists (scriptReads options), (duplicateReport options).
Qed.

Lemma assemble_status (config : ScriptConfig) (entries : list FileEntry)
    (stream : OutputStream) (w : World) :
  exit_status (assemble makeSelfExtractingScript config entries stream w)
  = match fst (makeSelfExtractingScript config entries stream w) with
    | Resolved => 0%Z
    | Rejected | StreamError => 1%Z
    end.
Proof.
  unfold assemble, exit_status.
  by destruct (makeSelfExtractingScript config entries stream w) as [[] ?].
Qed.

(** The first four checks, in the order the program makes them. *)
Lemma createArchive_no_files (options : OptionsType) (w : World) :
  files options = [] ->
  createArchive makeSelfExtractingScript options w
  = (Exited 1, afterError "No files to embed specified" w).
Proof.
  intros Hfiles. unfold createArchive, prepare.
  rewrite bind_run, guard_run, Hfiles. done.
Qed.

Lemma createArchive_no_post (options : OptionsType) (w : World) :
  files options <> [] ->
  noPostExtraction options = true ->
  createArchive makeSelfExtractingScript options w
  = (Exited 1, afterError "No post extraction script specified" w).
Proof.
  intros Hfiles Hpost. unfold createArchive, prepare.
  rewrite bind_run, guard_run.
  destruct (files options); [done |]. cbn [length Nat.eqb].
  rewrite guard_run, Hpost. done.
Qed.

Lemma createArchive_bad_type (options : OptionsType) (w : World) :
  files options <> [] ->
  noPostExtraction options = false ->
  type options <> "tar" ->
  type options <> "zip" ->
  createArchive makeSelfExtractingScript options w
  = (Exited 1,
     afterError "Invalid archive type. Values tar or zip allowed" w).
Proof.
  intros Hfiles Hpost Htar Hzip. unfold createArchive, prepare.
  rewrite bind_run, guard_run.
  destruct (files options); [done |]. cbn [length Nat.eqb].
  rewrite guard_run, Hpost. unfold validateArchiveType.
  rewrite guard_run.
  destruct (some _ validArchiveTypes) eqn:Htype; [|done].
  apply validArchiveTypes_spec in Htype as [?|?]; done.
Qed.

Lemma createArchive_bad_level (options : OptionsType) (w : World)
    (v : number) :
  files options <> [] ->
  noPostExtraction options = false ->
  type options = "tar" \/ type options = "zip" ->
  compress_level options = Some v ->
  ~ isLevel v ->
  createArchive makeSelfExtractingScript options w
  = (Exited 1,
     afterError "Invalid compression level. Values 0-9 allowed" w).
Proof.
  intros Hfiles Hpost Htype Hlevel Hv. unfold createArchive, prepare.
  rewrite bind_run, guard_run.
  destruct (files options); [done |]. cbn [length Nat.eqb].
  rewrite guard_run, Hpost. unfold validateArchiveType.
  rewrite guard_run.
  apply validArchiveTypes_spec in Htype. rewrite Htype. cbn [negb].
  rewrite validateCompressLevel_guard, guard_run.
  destruct (levelRejected (compress_level options)) eqn:E; [done |].
  pose proof (proj1 (levelRejected_spec _) E v Hlevel). done.
Qed.

(** A request with a bad archive type or a bad compression level never
    gets past the first four checks: one message, exit status 1. *)
Lemma createArchive_option_error (options : OptionsType) (w : World) :
  (type options <> "tar" /\ type options <> "zip")
  \/ (exists v, compress_level options = Some v /\ ~ isLevel v) ->
  exists msg,
    createArchive makeSelfExtractingScript options w
    = (Exited 1, afterError msg w)
    /\ (files options <> [] -> noPostExtraction options = false ->
        (type options <> "tar" /\ type options <> "zip"
         /\ msg = "Invalid archive type. Values tar or zip allowed")
        \/ ((type options = "tar" \/ type options = "zip")
            /\ msg = "Invalid compression level. Values 0-9 allowed")).
Proof.
  intros Hbad.
  destruct (decide (files options = [])) as [Hfiles|Hfiles].
  { eexists. split; [by apply createArchive_no_files | done]. }
  destruct (noPostExtraction options) eqn:Hpost.
  { eexists. split; [by apply createArchive_no_post | done]. }
  destruct (decide (type options = "tar")) as [Htar|Htar].
  - destruct Hbad as [[? _]|(v & Hv & Hnot)]; [done |].
    eexists. split; [eapply createArchive_bad_level; eauto |].
    intros _ _. right. auto.
  - destruct (decide (type options = "zip")) as [Hzip|Hzip].
    + destruct Hbad as [[_ ?]|(v & Hv & Hnot)]; [done |].
      eexists. split; [eapply createArchive_bad_level; eauto |].
      intros _ _. right. auto.
    + eexists. split; [by apply createArchive_bad_type |].
      intros _ _. left. auto.
Qed.
End Runs.

Section ExitCodes.
Context {Path : PathModule}.
Variable makeSelfExtractingScript :
  ScriptConfig -> list FileEntry -> OutputStream -> World -> Settled * World.

End ExitCodes.

Lemma Sample_request_valid :
  validRequest (Path := Sample.posix) Sample.request Sample.world.
Proof.
  split; [split_and!|].
  - discriminate.
  - reflexivity.
  - by left.
  - intros v [=].
  - intros f [=].
  - intros f [=].
  - apply (bool_decide_unpack _). by vm_compute.
Qed.

(** ** Help *)

(** C9 as stated fails: [--help --bogus] asks for help, but
    command-line-args refuses the unknown option and throws at line 101,
    before the help branch: the run ends with the uncaught exception and
    exit status 1, and the usage text is not printed. *)
Lemma help_with_unknown_option :
  helpGiven (Refused ["--help"; "--bogus"])
  /\ script (Path := Sample.posix) Sample.usage Sample.readingAssembler
       (Refused ["--help"; "--bogus"]) Sample.world
     = (Exited 1,
        {| disk := disk Sample.world; trace := [UncaughtException] |})
  /\ exit_status
       (script (Path := Sample.posix) Sample.usage Sample.readingAssembler
          (Refused ["--help"; "--bogus"]) Sample.world) <> 0%Z.
Proof.
  split; [left; apply list_elem_of_here |]. split; [reflexivity | done].
Qed.

(** C9, amended: when command-line-args accepts the command line and
    [--help] is given, the program prints the usage text and exits with
    status 0, and that is all it does: no check is made, no file is read,
    no output is asked for and the assembler is not called, whatever the
    values of the other options are.  When command-line-args refuses the
    command line, the run ends at line 101 with the uncaught exception and
    exit status 1, whether [--help] is given or not. *)
Theorem help_takes_precedence {Path : PathModule} (usage : string)
    (makeSelfExtractingScript :
       ScriptConfig -> list FileEntry -> OutputStream -> World -> Settled * World)
    (w : World) :
  (forall options, help options = true ->
     main usage makeSelfExtractingScript options w
     = (Exited 0,
        {| disk := disk w; trace := trace w ++ [ConsoleLog usage] |}))
  /\ (forall supplied, helpGiven (Accepted supplied) ->
      script usage makeSelfExtractingScript (Accepted supplied) w
      = (Exited 0,
         {| disk := disk w; trace := trace w ++ [ConsoleLog usage] |}))
  /\ (forall argv,
      script usage makeSelfExtractingScript (Refused argv) w
      = (Exited 1,
         {| disk := disk w; trace := trace w ++ [UncaughtException] |})).
Proof.
  split_and!.
  - intros options. apply main_help.
  - intros supplied Hhelp. unfold script. cbn [commandLineArgs].
    apply main_help. unfold withDefaults. cbn in *. by rewrite Hhelp.
  - done.
Qed.

Lemma help_takes_precedence_witness :
  (help Sample.helpRequest = true
   /\ main (Path := Sample.posix) Sample.usage Sample.readingAssembler
        Sample.helpRequest Sample.world
      = (Exited 0,
         {| disk := disk Sample.world;
            trace := [ConsoleLog Sample.usage] |}))
  /\ (helpGiven (Accepted SampleArgs.helpAndBadType)
      /\ script (Path := Sample.posix) Sample.usage Sample.readingAssembler
           (Accepted SampleArgs.helpAndBadType) Sample.world
         = (Exited 0,
            {| disk := disk Sample.world;
               trace := [ConsoleLog Sample.usage] |})).
Proof.
  destruct (help_takes_precedence (Path := Sample.posix) Sample.usage
              Sample.readingAssembler Sample.world) as (Hmain & Hscript & _).
  split.
  - split; [reflexivity |]. exact (Hmain Sample.helpRequest eq_refl).
  - split; [reflexivity |].
    exact (Hscript SampleArgs.helpAndBadType eq_refl).
Defined.

(** ** Exit codes *)

(** C8: without [--help], an empty file list is refused with the message
    "No files to embed specified" and exit status 1; the exit status of a
    run is 0 or 1, and it is 0 exactly when the request passes every check
    and the wait for the assembler ends with its promise resolved: a
    failed check, a rejected promise and an output stream that fails all
    give 1. *)
Theorem empty_file_list_and_exit_codes {Path : PathModule} (usage : string)
    (makeSelfExtractingScript :
       ScriptConfig -> list FileEntry -> OutputStream -> World -> Settled * World)
    (options : OptionsType) (w : World) :
  help options = false ->
  (files options = [] ->
   main usage makeSelfExtractingScript options w
   = (Exited 1, afterError "No files to embed specified" w))
  /\ (exit_status (main usage makeSelfExtractingScript options w) = 0%Z
      \/ exit_status (main usage makeSelfExtractingScript options w) = 1%Z)
  /\ (exit_status (main usage makeSelfExtractingScript options w) = 0%Z
      <-> validRequest options w
          /\ fst (makeSelfExtractingScript
                    (scriptConfig (loadedOptions options w))
                    (entriesOf options)
                    (fst (openedOutput options (afterReads options w)))
                    (snd (openedOutput options (afterReads options w))))
             = Resolved).
Proof.
  intros Hhelp. rewrite (main_no_help _ _ _ _ Hhelp). split.
  { apply createArchive_no_files. }
  destruct (prepare_spec options w) as [Hvalid|reads msg Hno|Hchecks Hdup].
  - rewrite (createArchive_valid _ _ _ Hvalid), assemble_status.
    destruct (fst _); (split; [auto |]); split; try done;
      by intros [_ ?].
  - destruct (createArchive_invalid makeSelfExtractingScript options w)
      as (rs & ms & _ & ->); [by intros [? _] |].
    unfold exit_status. simpl. split; [auto |].
    split; [done | by intros [[? _] _]].
  - destruct (createArchive_invalid makeSelfExtractingScript options w)
      as (rs & ms & _ & ->); [by intros [_ ?] |].
    unfold exit_status. simpl. split; [auto |].
    split; [done | by intros [[_ ?] _]].
Qed.

Lemma empty_file_list_and_exit_codes_witness :
  (help Sample.noFilesRequest = false
   /\ files Sample.noFilesRequest = []
   /\ main (Path := Sample.posix) Sample.usage Sample.readingAssembler
        Sample.noFilesRequest Sample.world
      = (Exited 1, afterError "No files to embed specified" Sample.world))
  /\ (help Sample.request = false
      /\ exit_status
           (main (Path := Sample.posix) Sample.usage Sample.readingAssembler
              Sample.request Sample.world) = 0%Z)
  /\ (help SampleOutputs.noDirectory = false
      /\ exit_status
           (main (Path := Sample.posix) Sample.usage Sample.readingAssembler
              SampleOutputs.noDirectory Sample.world) <> 0%Z).
Proof.
  split; [|split].
  - split; [reflexivity |]. split; [reflexivity |].
    apply (empty_file_list_and_exit_codes (Path := Sample.posix) Sample.usage
             Sample.readingAssembler Sample.noFilesRequest Sample.world
             eq_refl).
    reflexivity.
  - split; [reflexivity |].
    apply (empty_file_list_and_exit_codes (Path := Sample.posix) Sample.usage
             Sample.readingAssembler Sample.request Sample.world eq_refl).
    split; [exact Sample_request_valid | vm_compute; reflexivity].
  - split; [reflexivity |]. intros Hzero.
    apply (empty_file_list_and_exit_codes (Path := Sample.posix) Sample.usage
             Sample.readingAssembler SampleOutputs.noDirectory Sample.world
             eq_refl) in Hzero as [_ Hresolved].
    vm_compute in Hresolved. discriminate Hresolved.
Defined.

(** ** Archive type and compression level *)

(** C6: for a command line that command-line-args accepts, the options
    are the collected values with the defaults filled in, and when
    [--type] is not given the archive type is "tar".  For a type
    other than "tar" and "zip", [validateArchiveType] prints "Invalid
    archive type. Values tar or zip allowed" and exits with status 1; a
    run without [--help] ends with one error message and exit status 1,
    the disk untouched and the assembler not called, and the message is
    the one about the archive type once the file list and the
    post-extraction script have passed their checks. *)
Theorem archive_type_default_and_validation {Path : PathModule}
    (usage : string)
    (makeSelfExtractingScript :
       ScriptConfig -> list FileEntry -> OutputStream -> World -> Settled * World)
    (argv : CommandLine) (w : World) :
  commandLineArgs (Accepted argv) = Some (withDefaults argv)
  /\ (arg_type argv = None -> type (withDefaults argv) = "tar")
  /\ (type (withDefaults argv) <> "tar" ->
      type (withDefaults argv) <> "zip" ->
      (forall value,
         validateArchiveType (withDefaults argv) value w
         = (Exited 1,
            afterError "Invalid archive type. Values tar or zip allowed" w))
      /\ (help (withDefaults argv) = false ->
          exists msg,
            main usage makeSelfExtractingScript (withDefaults argv) w
            = (Exited 1, afterError msg w)
            /\ (files (withDefaults argv) <> [] ->
                noPostExtraction (withDefaults argv) = false ->
                msg = "Invalid archive type. Values tar or zip allowed"))).
Proof.
  split; [done |]. split.
  - intros Hnone. unfold withDefaults. cbn [type]. by rewrite Hnone.
  - intros Htar Hzip. split.
    + intros value. unfold validateArchiveType.
      destruct (some _ validArchiveTypes) eqn:Htype; [|done].
      apply validArchiveTypes_spec in Htype as [?|?]; done.
    + intros Hhelp. rewrite (main_no_help _ _ _ _ Hhelp).
      destruct (createArchive_option_error makeSelfExtractingScript
                  (withDefaults argv) w) as (msg & Hrun & Hmsg);
        [by left |].
      exists msg. split; [done |]. intros Hfiles Hpost.
      destruct (Hmsg Hfiles Hpost) as [(_ & _ & ->)|([?|?] & _)]; done.
Qed.

Lemma archive_type_default_and_validation_witness :
  (arg_type SampleArgs.plain = None
   /\ type (withDefaults SampleArgs.plain) = "tar")
  /\ (type (withDefaults SampleArgs.rar) = "rar"
      /\ help (withDefaults SampleArgs.rar) = false
      /\ exists msg,
           main (Path := Sample.posix) Sample.usage Sample.readingAssembler
             (withDefaults SampleArgs.rar) Sample.world
           = (Exited 1, afterError msg Sample.world)
           /\ (files (withDefaults SampleArgs.rar) <> [] ->
               noPostExtraction (withDefaults SampleArgs.rar) = false ->
               msg = "Invalid archive type. Values tar or zip allowed")).
Proof.
  split.
  - split; [reflexivity |].
    apply (proj2 (archive_type_default_and_validation (Path := Sample.posix)
             Sample.usage Sample.readingAssembler SampleArgs.plain
             Sample.world)).
    reflexivity.
  - split; [reflexivity |]. split; [reflexivity |].
    apply (proj2 (archive_type_default_and_validation (Path := Sample.posix)
             Sample.usage Sample.readingAssembler SampleArgs.rar
             Sample.world)).
    + discriminate.
    + discriminate.
    + reflexivity.
Defined.

(** C7: [validateCompressLevel] lets a supplied value pass exactly when it
    is one of the integers 0 to 9; without [--help], any other supplied
    value ends the run with one error message and exit status 1; an absent
    level passes the check, and a valid request hands the level to the
    assembler as it was given, so an absent level arrives as [undefined]. *)
Theorem compress_level_validation {Path : PathModule} (usage : string)
    (makeSelfExtractingScript :
       ScriptConfig -> list FileEntry -> OutputStream -> World -> Settled * World)
    (options : OptionsType) (w : World) :
  help options = false ->
  (forall v w0,
     fst (validateCompressLevel (Some v) w0) = Returned tt <-> isLevel v)
  /\ (forall v, compress_level options = Some v -> ~ isLevel v ->
      exists msg,
        main usage makeSelfExtractingScript options w
        = (Exited 1, afterError msg w))
  /\ validateCompressLevel None w = (Returned tt, w)
  /\ (validRequest options w ->
      main usage makeSelfExtractingScript options w
      = assemble makeSelfExtractingScript
          (scriptConfig (loadedOptions options w)) (entriesOf options)
          (fst (openedOutput options (afterReads options w)))
          (snd (openedOutput options (afterReads options w)))
      /\ compressionLevel (scriptConfig (loadedOptions options w))
         = compress_level options).
Proof.
  intros Hhelp. split_and!.
  - intros v w0. rewrite <- validCompressLevels_spec.
    unfold validateCompressLevel.
    destruct (some _ validCompressLevels); cbn; split; done.
  - intros v Hv Hnot. rewrite (main_no_help _ _ _ _ Hhelp).
    destruct (createArchive_option_error makeSelfExtractingScript options w)
      as (msg & Hrun & _); [right; by exists v |].
    by exists msg.
  - done.
  - intros Hvalid. rewrite (main_no_help _ _ _ _ Hhelp).
    by rewrite (createArchive_valid _ _ _ Hvalid).
Qed.

Lemma compress_level_validation_witness :
  help SampleLevels.twelve = false
  /\ (fst (validateCompressLevel (Some (of_Z 7)) Sample.world) = Returned tt
      /\ fst (validateCompressLevel (Some SampleLevels.half) Sample.world)
         <> Returned tt
      /\ fst (validateCompressLevel (Some NaN) Sample.world) <> Returned tt)
  /\ (exists msg,
        main (Path := Sample.posix) Sample.usage Sample.readingAssembler
          SampleLevels.twelve Sample.world
        = (Exited 1, afterError msg Sample.world))
  /\ compressionLevel
       (scriptConfig (loadedOptions Sample.request Sample.world)) = None.
Proof.
  pose proof (compress_level_validation (Path := Sample.posix) Sample.usage
                Sample.readingAssembler SampleLevels.twelve Sample.world
                eq_refl) as (Hiff & Hreject & _ & _).
  pose proof (compress_level_validation (Path := Sample.posix) Sample.usage
                Sample.readingAssembler Sample.request Sample.world
                eq_refl) as (_ & _ & _ & Hforward).
  split; [reflexivity |]. split_and!.
  - apply Hiff. exists 7%Z. split; [lia | reflexivity].
  - intros (k & Hk & Heq)%Hiff. unfold Qeq in Heq. simpl in Heq. lia.
  - by intros (k & Hk & Heq)%Hiff.
  - apply (Hreject (of_Z 12) eq_refl).
    intros (k & Hk & Heq). unfold Qeq in Heq. simpl in Heq. lia.
  - by destruct (Hforward Sample_request_valid) as [_ ->].
Defined.

(** ** The post-extraction script *)

Section PostExtraction.
Context {Path : PathModule}.
Variable usage : string.
Variable makeSelfExtractingScript :
  ScriptConfig -> list FileEntry -> OutputStream -> World -> Settled * World.

(** Without [--post-extract] the run is refused, whether or not
    [--post-extract-file] is given. *)
Lemma post_extract_undefined (options : OptionsType) (w : World) :
  help options = false ->
  files options <> [] ->
  post_extract options = None ->
  main usage makeSelfExtractingScript options w
  = (Exited 1, afterError "No post extraction script specified" w).
Proof.
  intros Hhelp Hfiles Hpost. rewrite (main_no_help _ _ _ _ Hhelp).
  apply createArchive_no_post; [done |].
  unfold noPostExtraction. by rewrite Hpost.
Qed.

(** Inline text alone passes the check when it is not empty. *)
Lemma post_extract_inline (options : OptionsType) (text : string) :
  post_extract options = Some text ->
  text <> "" ->
  noPostExtraction options = false.
Proof.
  intros Hpost Htext. unfold noPostExtraction. rewrite Hpost.
  by destruct text.
Qed.

(** With both given, the check passes and the assembler receives the
    content of the file. *)
Lemma post_extract_file_wins (options : OptionsType) (w : World)
    (text file : string) :
  post_extract options = Some text ->
  post_extract_file options = Some file ->
  noPostExtraction options = false
  /\ (validRequest options w ->
      postExtraction (scriptConfig (loadedOptions options w))
      = disk w !! file
      /\ is_Some (disk w !! file)).
Proof.
  intros Hpost Hfile. split.
  - unfold noPostExtraction. rewrite Hpost, Hfile. apply andb_false_r.
  - intros [(_ & _ & _ & _ & _ & Hread) _]. cbn. rewrite Hfile.
    split; [done | by apply Hread].
Qed.
End PostExtraction.

Lemma SampleScripts_emptyInlineAndFile_valid :
  validRequest (Path := Sample.posix) SampleScripts.emptyInlineAndFile
    Sample.world.
Proof.
  split; [split_and!|].
  - discriminate.
  - reflexivity.
  - by left.
  - intros v [=].
  - intros f [=].
  - intros f [= <-]. exists "echo from file". by vm_compute.
  - apply (bool_decide_unpack _). by vm_compute.
Qed.

(** C1, at [--post-extract-file post.sh --output out.sh a.sh]: the script
    file is readable, yet the run is refused with "No post extraction
    script specified" and exit status 1; the same command line with an
    empty [--post-extract] text added passes every check, and the
    assembler is given the content of the file. *)
Theorem post_extract_file_alone_is_refused :
  post_extract SampleScripts.fileOnly = None
  /\ post_extract_file SampleScripts.fileOnly = Some "post.sh"
  /\ disk Sample.world !! "post.sh" = Some "echo from file"
  /\ main (Path := Sample.posix) Sample.usage Sample.readingAssembler
       SampleScripts.fileOnly Sample.world
     = (Exited 1,
        afterError "No post extraction script specified" Sample.world)
  /\ validRequest (Path := Sample.posix) SampleScripts.emptyInlineAndFile
       Sample.world
  /\ postExtraction
       (scriptConfig
          (loadedOptions SampleScripts.emptyInlineAndFile Sample.world))
     = Some "echo from file".
Proof.
  split; [reflexivity |]. split; [reflexivity |].
  split; [by vm_compute |].
  split; [by apply post_extract_undefined |].
  split; [apply SampleScripts_emptyInlineAndFile_valid | by vm_compute].
Qed.

(** ** Failures and the output file *)




(** ** Duplicate entry names *)

Section Counting.
Context {A : Type} (P : A -> Prop) `{!forall x, Decision (P x)}.

Lemma filter_length_one (l : list A) :
  1 <= length (filter P l) <-> exists j y, l !! j = Some y /\ P y.
Proof.
  split.
  - destruct (filter P l) as [|y l'] eqn:E; simpl; [lia |]. intros _.
    assert (Hy : y ∈ filter P l) by (rewrite E; left).
    apply list_elem_of_filter in Hy as [HP Hy].
    apply list_elem_of_lookup in Hy as [j Hj]. eauto.
  - intros (j & y & Hj & HP).
    assert (Hy : y ∈ filter P l).
    { apply list_elem_of_filter. split; [done |].
      by apply list_elem_of_lookup_2 in Hj. }
    destruct (filter P l); [by apply elem_of_nil in Hy | simpl; lia].
Qed.

(** Two or more elements satisfy [P] exactly when two positions do. *)
Lemma filter_length_two (l : list A) :
  2 <= length (filter P l)
  <-> exists i j x y,
        i <> j /\ l !! i = Some x /\ l !! j = Some y /\ P x /\ P y.
Proof.
  induction l as [|a l IH].
  - simpl. split; [lia | by intros (i & j & x & y & _ & ? & _)].
  - destruct (decide (P a)) as [Ha|Ha].
    + rewrite filter_cons_True by done. simpl.
      rewrite <- Nat.succ_le_mono, filter_length_one. split.
      * intros (j & y & Hj & Hy). exists 0, (S j), a, y. by split_and!.
      * intros (i & j & x & y & Hij & Hi & Hj & Hx & Hy).
        destruct i as [|i], j as [|j]; simpl in *; [done | | |]; eauto.
    + rewrite filter_cons_False by done. rewrite IH. split.
      * intros (i & j & x & y & Hij & Hi & Hj & Hx & Hy).
        exists (S i), (S j), x, y. split_and!; (done || lia).
      * intros (i & j & x & y & Hij & Hi & Hj & Hx & Hy).
        destruct i as [|i], j as [|j]; simpl in *;
          [done | by simplify_eq | by simplify_eq |].
        exists i, j, x, y. split_and!; (done || lia).
Qed.
End Counting.

Section Duplicates.
Context {Path : PathModule}.

Lemma entriesOf_lookup (options : OptionsType) (i : nat) (e : FileEntry) :
  entriesOf options !! i = Some e
  <-> exists p, files options !! i = Some p
        /\ e = resolveEntry (path_resolve <$> root options) p.
Proof.
  unfold entriesOf.
  change (map ?f ?l) with (f <$> l). rewrite list_lookup_fmap.
  destruct (files options !! i) as [p|]; simpl; split.
  - intros [= <-]. by exists p.
  - by intros (? & [= <-] & ->).
  - done.
  - by intros (? & ? & _).
Qed.

Lemma colliding_inputs (options : OptionsType) (n : string) :
  n ∈ collidingNames (entriesOf options)
  <-> exists i j p q,
        i <> j /\ files options !! i = Some p /\ files options !! j = Some q
        /\ entryName options p = n /\ entryName options q = n.
Proof.
  rewrite elem_of_collidingNames, filter_length_two. split.
  - intros (i & j & x & y & Hij & Hi & Hj & Hx & Hy).
    apply entriesOf_lookup in Hi as (p & Hp & ->).
    apply entriesOf_lookup in Hj as (q & Hq & ->).
    by exists i, j, p, q.
  - intros (i & j & p & q & Hij & Hp & Hq & Hn & Hm).
    exists i, j, (resolveEntry (path_resolve <$> root options) p),
      (resolveEntry (path_resolve <$> root options) q).
    split_and!; try done; apply entriesOf_lookup; eauto.
Qed.

Lemma sources_inputs (options : OptionsType) (n src : string) :
  src ∈ sources n (entriesOf options)
  <-> exists p, p ∈ files options /\ entryName options p = n
        /\ src = path_resolve p.
Proof.
  unfold sources. rewrite list_elem_of_fmap. split.
  - intros (e & -> & [Hn He]%list_elem_of_filter).
    apply list_elem_of_lookup in He as [i Hi].
    apply entriesOf_lookup in Hi as (p & Hp & ->).
    exists p. split_and!; [by eapply list_elem_of_lookup_2 | done | done].
  - intros (p & [i Hi]%list_elem_of_lookup & Hn & ->).
    exists (resolveEntry (path_resolve <$> root options) p).
    split; [done |]. apply list_elem_of_filter. split; [done |].
    apply (list_elem_of_lookup_2 _ i), entriesOf_lookup. eauto.
Qed.

Lemma colliding_not_NoDup (options : OptionsType) (i j : nat)
    (p q : string) :
  i <> j ->
  files options !! i = Some p ->
  files options !! j = Some q ->
  entryName options p = entryName options q ->
  ~ NoDup (filename <$> entriesOf options).
Proof.
  intros Hij Hp Hq Hname Hnd. apply Hij.
  apply (proj1 (NoDup_alt _) Hnd i j (entryName options p)).
  - rewrite list_lookup_fmap.
    by rewrite (proj2 (entriesOf_lookup options i _)
                  (ex_intro _ p (conj Hp eq_refl))).
  - rewrite list_lookup_fmap.
    rewrite (proj2 (entriesOf_lookup options j _)
               (ex_intro _ q (conj Hq eq_refl))).
    simpl. by rewrite Hname.
Qed.
End Duplicates.

Section DuplicateRuns.
Context {Path : PathModule}.
Variable usage : string.
Variable makeSelfExtractingScript :
  ScriptConfig -> list FileEntry -> OutputStream -> World -> Settled * World.

Lemma createArchive_duplicates (options : OptionsType) (w : World) :
  checksBeforeEntries options w ->
  ~ NoDup (filename <$> entriesOf options) ->
  createArchive makeSelfExtractingScript options w
  = (Exited 1,
     {| disk := disk w;
        trace := trace w ++ map ReadFile (scriptReads options)
                   ++ map ConsoleError (duplicateReport options) |}).
Proof.
  intros Hchecks Hdup. unfold createArchive. rewrite bind_run.
  by destruct (prepare_spec options w) as [[_ ?]|reads msg Hno|_ _].
Qed.

(** C3: without [--help], when two input paths at different positions get
    the same entry name, the run exits with status 1 after nothing but
    script-file reads and error messages, the disk untouched.  Once the
    earlier checks have passed, what it prints is "Archive contains
    duplicate files" and then, for each colliding name in order of first
    occurrence, the name with its count and one line per source path.  The
    colliding names are listed once each and are exactly the names that
    two input positions share; the sources listed for a name are exactly
    the resolved paths of the inputs that get this name. *)
Theorem duplicate_entry_names (options : OptionsType) (w : World)
    (i j : nat) (p q : string) :
  help options = false ->
  i <> j ->
  files options !! i = Some p ->
  files options !! j = Some q ->
  entryName options p = entryName options q ->
  (exists reads msgs, msgs <> [] /\
     main usage makeSelfExtractingScript options w
     = (Exited 1,
        {| disk := disk w;
           trace := trace w ++ map ReadFile reads
                            ++ map ConsoleError msgs |}))
  /\ (checksBeforeEntries options w ->
      main usage makeSelfExtractingScript options w
      = (Exited 1,
         {| disk := disk w;
            trace := trace w ++ map ReadFile (scriptReads options)
              ++ map ConsoleError
                   ("Archive contains duplicate files"
                    :: flat_map (collisionLines (entriesOf options))
                         (collidingNames (entriesOf options))) |}))
  /\ NoDup (collidingNames (entriesOf options))
  /\ (forall n,
        n ∈ collidingNames (entriesOf options)
        <-> exists i' j' p' q',
              i' <> j' /\ files options !! i' = Some p'
              /\ files options !! j' = Some q'
              /\ entryName options p' = n /\ entryName options q' = n)
  /\ (forall n src,
        src ∈ sources n (entriesOf options)
        <-> exists p', p' ∈ files options /\ entryName options p' = n
              /\ src = path_resolve p').
Proof.
  intros Hhelp Hij Hp Hq Hname.
  pose proof (colliding_not_NoDup options i j p q Hij Hp Hq Hname) as Hdup.
  rewrite (main_no_help _ _ _ _ Hhelp). split_and!.
  - apply createArchive_invalid. by intros [_ ?].
  - intros Hchecks. by apply createArchive_duplicates.
  - apply NoDup_collidingNames.
  - apply colliding_inputs.
  - apply sources_inputs.
Qed.
End DuplicateRuns.

Lemma duplicate_entry_names_witness :
  help SampleDuplicates.request = false
  /\ entryName (Path := Sample.posix) SampleDuplicates.request "src/a.txt"
     = entryName (Path := Sample.posix) SampleDuplicates.request "out/a.txt"
  /\ main (Path := Sample.posix) Sample.usage Sample.readingAssembler
       SampleDuplicates.request Sample.world
     = (Exited 1,
        {| disk := disk Sample.world;
           trace :=
             map ConsoleError
               ["Archive contains duplicate files";
                "Archive would contain path a.txt 3 times";
                "  From /work/src/a.txt";
                "  From /work/out/a.txt";
                "  From /work/lib/a.txt";
                "Archive would contain path b.txt 2 times";
                "  From /work/b.txt";
                "  From /work/docs/b.txt"] |}).
Proof.
  split; [reflexivity |]. split; [reflexivity |].
  destruct (duplicate_entry_names (Path := Sample.posix) Sample.usage
              Sample.readingAssembler SampleDuplicates.request Sample.world
              0 2 "src/a.txt" "out/a.txt" eq_refl ltac:(lia) eq_refl eq_refl
              eq_refl) as (_ & Hreport & _).
  rewrite Hreport.
  - by vm_compute.
  - split_and!;
      [discriminate | reflexivity | by left | intros v [=] | intros f [=]
      | intros f [=]].
Defined.

(** ** The base of a POSIX path *)

Lemma Posix_split_no_slash (s seg : string) :
  In seg (Posix.split s) -> ~ In "/"%char (chars seg).
Proof.
  revert seg. induction s as [|c s IH]; intros seg; simpl.
  - intros [<-|[]]. simpl. tauto.
  - destruct (Ascii.eqb_spec c "/"%char) as [->|Hc].
    + intros [<-|Hin]; [simpl; tauto | by apply IH].
    + destruct (Posix.split s) as [|seg0 segs] eqn:E.
      * intros [<-|[]]. simpl. intros [?|[]]. congruence.
      * intros [<-|Hin].
        -- simpl. intros [?|Hin]; [congruence |].
           apply (IH seg0); [by left | done].
        -- apply IH. by right.
Qed.

Lemma last_default_or_In {A : Type} (l : list A) (d : A) :
  List.last l d = d \/ In (List.last l d) l.
Proof.
  destruct l as [|a l]; [by left |]. right.
  revert a. induction l as [|b l IH]; intros a; [by left |].
  right. apply (IH b).
Qed.

(** The base of a path holds no ['/']: every directory is gone. *)
Lemma Posix_basename_no_slash (p : string) :
  ~ In "/"%char (chars (Posix.basename p)).
Proof.
  unfold Posix.basename.
  destruct (last_default_or_In
              (filter (fun seg => negb (String.eqb seg "")) (Posix.split p))
              "") as [->|Hin]; [by intros [] |].
  apply list_elem_of_In, list_elem_of_filter in Hin as [_ Hin].
  by apply (Posix_split_no_slash p), list_elem_of_In.
Qed.

(** ** Entry names, source paths and modes *)

Section Entries.
Context {Path : PathModule}.

(** What [prepare] returns, when it returns. *)
Lemma prepare_returns (options o : OptionsType) (es : list FileEntry)
    (w w' : World) :
  prepare options w = (Returned (o, es), w') ->
  validRequest options w /\ o = loadedOptions options w
  /\ es = entriesOf options /\ w' = afterReads options w.
Proof.
  intros Hrun.
  destruct (prepare_spec options w) as [Hvalid|reads msg Hno|Hc Hdup];
    [|discriminate|discriminate].
  by injection Hrun as <- <- <-.
Qed.

(** C4: when the run gets to resolve its entries, the entry for the input
    path at position [i] is at position [i]; its name is the input path
    made relative to the resolved root when [--root] is given and the base
    of the parsed input path otherwise; its source path is the input path
    resolved.  Under the POSIX rules the base of a path holds no ['/']:
    its directories are gone. *)
Theorem entry_name_and_source_path (options o : OptionsType)
    (es : list FileEntry) (w w' : World) (i : nat) (p : string) :
  prepare options w = (Returned (o, es), w') ->
  files options !! i = Some p ->
  exists e,
    es !! i = Some e
    /\ filename e
       = match root options with
         | Some r => path_relative (path_resolve r) p
         | None => base (path_parse p)
         end
    /\ path e = path_resolve p
    /\ ~ In "/"%char (chars (base (Posix.parse p))).
Proof.
  intros (_ & _ & -> & _)%prepare_returns Hp.
  exists (resolveEntry (path_resolve <$> root options) p). split_and!.
  - apply entriesOf_lookup. eauto.
  - by destruct (root options).
  - done.
  - apply Posix_basename_no_slash.
Qed.

(** C5: when the run gets to resolve its entries, the mode of the entry
    for an input path is [0o755] (493) when the extension of the parsed
    path is exactly ".sh" and [0o644] (420) for any other extension, ".SH"
    included; it depends on nothing else, and up to that point the run has
    read no file but the script files. *)
Theorem mode_by_extension (options o : OptionsType) (es : list FileEntry)
    (w w' : World) (i : nat) (p : string) :
  prepare options w = (Returned (o, es), w') ->
  files options !! i = Some p ->
  exists e,
    es !! i = Some e
    /\ (ext (path_parse p) = ".sh" -> mode e = 493%Z)
    /\ (ext (path_parse p) <> ".sh" -> mode e = 420%Z)
    /\ (ext (path_parse p) = ".SH" -> mode e = 420%Z)
    /\ trace w' = trace w ++ map ReadFile (scriptReads options).
Proof.
  intros (_ & _ & -> & ->)%prepare_returns Hp.
  exists (resolveEntry (path_resolve <$> root options) p). split_and!.
  - apply entriesOf_lookup. eauto.
  - intros Hext. cbn. by rewrite Hext.
  - intros Hext. cbn. by apply String.eqb_neq in Hext as ->.
  - intros Hext. cbn. by rewrite Hext.
  - done.
Qed.
End Entries.

Lemma entry_name_and_source_path_witness :
  (exists e,
     entriesOf (Path := Sample.posix) SampleRoots.request !! 0 = Some e
     /\ filename e = "src/a.txt" /\ path e = "/proj/src/a.txt")
  /\ (exists e,
        entriesOf (Path := Sample.posix) SampleRoots.scripts !! 0 = Some e
        /\ filename e = "install.sh" /\ path e = "/work/bin/install.sh").
Proof.
  split.
  - destruct (entry_name_and_source_path (Path := Sample.posix)
                SampleRoots.request
                (loadedOptions SampleRoots.request Sample.world)
                (entriesOf (Path := Sample.posix) SampleRoots.request) Sample.world
                (afterReads SampleRoots.request Sample.world)
                0 "/proj/src/a.txt" ltac:(vm_compute; reflexivity) eq_refl)
      as (e & He & Hname & Hpath & _).
    exists e. split_and!; [done | by rewrite Hname | by rewrite Hpath].
  - destruct (entry_name_and_source_path (Path := Sample.posix)
                SampleRoots.scripts
                (loadedOptions SampleRoots.scripts Sample.world)
                (entriesOf (Path := Sample.posix) SampleRoots.scripts) Sample.world
                (afterReads SampleRoots.scripts Sample.world)
                0 "bin/install.sh" ltac:(vm_compute; reflexivity) eq_refl)
      as (e & He & Hname & Hpath & _).
    exists e. split_and!; [done | by rewrite Hname | by rewrite Hpath].
Defined.

Lemma mode_by_extension_witness :
  (exists e,
     entriesOf (Path := Sample.posix) SampleRoots.scripts !! 0 = Some e
     /\ mode e = 493%Z)
  /\ (exists e,
        entriesOf (Path := Sample.posix) SampleRoots.scripts !! 1 = Some e
        /\ mode e = 420%Z)
  /\ (exists e,
        entriesOf (Path := Sample.posix) SampleRoots.scripts !! 2 = Some e
        /\ mode e = 420%Z).
Proof.
  split_and!.
  - destruct (mode_by_extension (Path := Sample.posix) SampleRoots.scripts
                (loadedOptions SampleRoots.scripts Sample.world)
                (entriesOf (Path := Sample.posix) SampleRoots.scripts) Sample.world
                (afterReads SampleRoots.scripts Sample.world)
                0 "bin/install.sh" ltac:(vm_compute; reflexivity) eq_refl)
      as (e & He & Hsh & _).
    exists e. split; [done | by apply Hsh].
  - destruct (mode_by_extension (Path := Sample.posix) SampleRoots.scripts
                (loadedOptions SampleRoots.scripts Sample.world)
                (entriesOf (Path := Sample.posix) SampleRoots.scripts) Sample.world
                (afterReads SampleRoots.scripts Sample.world)
                1 "bin/INSTALL.SH" ltac:(vm_compute; reflexivity) eq_refl)
      as (e & He & _ & _ & Hupper & _).
    exists e. split; [done | by apply Hupper].
  - destruct (mode_by_extension (Path := Sample.posix) SampleRoots.scripts
                (loadedOptions SampleRoots.scripts Sample.world)
                (entriesOf (Path := Sample.posix) SampleRoots.scripts) Sample.world
                (afterReads SampleRoots.scripts Sample.world)
                2 "notes.txt" ltac:(vm_compute; reflexivity) eq_refl)
      as (e & He & _ & Hother & _).
    exists e. split; [done | by apply Hother].
Defined.

(** ** Paths outside the root *)

Lemma Posix_dropCommon_outside (from to : list string) :
  ~ from `prefix_of` to -> fst (Posix.dropCommon from to) <> [].
Proof.
  revert to. induction from as [|f from IH]; intros to Hout.
  - destruct Hout. apply prefix_nil.
  - destruct to as [|t to]; [done |]. simpl.
    destruct (String.eqb f t) eqn:E; [|done].
    apply String.eqb_eq in E as ->. apply IH.
    intros Hpre. by apply Hout, prefix_cons.
Qed.

Lemma Posix_join_cons (x : string) (l : list string) :
  exists rest,
    Posix.join (x :: l) = x +:+ rest
    /\ (rest = "" \/ exists rest', rest = "/" +:+ rest').
Proof.
  destruct l as [|y l].
  - exists "". split; [|by left]. simpl.
    induction x as [|c x IH]; [done |].
    change (String c x = String c (x +:+ "")). by rewrite <- IH.
  - exists ("/" +:+ Posix.join (y :: l)). split; [done |]. right. eauto.
Qed.

(** An entry name that climbs out of the root starts with a [..] segment. *)
Lemma Posix_relative_outside (cwd from to : string) :
  ~ Posix.segments cwd from `prefix_of` Posix.segments cwd to ->
  exists rest,
    Posix.relative cwd from to = ".." +:+ rest
    /\ (rest = "" \/ exists rest', rest = "/" +:+ rest').
Proof.
  intros Hout%Posix_dropCommon_outside. unfold Posix.relative.
  destruct (Posix.dropCommon _ _) as [up down]. simpl in Hout.
  destruct up as [|u up]; [done |].
  apply Posix_join_cons.
Qed.

(** C10: with [--root], for an input path whose resolved segments do not
    start with the segments of the resolved root, the entry name starts
    with a [..] segment; no check refuses such a path: a request that
    passes the checks reaches the assembler with this entry among its
    entries. *)
Theorem paths_outside_root (usage : string)
    (makeSelfExtractingScript :
       ScriptConfig -> list FileEntry -> OutputStream -> World -> Settled * World)
    (cwd : string) (options : OptionsType) (w : World) (r p : string) :
  help options = false ->
  root options = Some r ->
  p ∈ files options ->
  ~ Posix.segments cwd (Posix.resolve cwd r)
      `prefix_of` Posix.segments cwd p ->
  (exists rest,
     entryName (Path := Posix.module cwd) options p = ".." +:+ rest
     /\ (rest = "" \/ exists rest', rest = "/" +:+ rest'))
  /\ (validRequest (Path := Posix.module cwd) options w ->
      resolveEntry (Path := Posix.module cwd) (Some (Posix.resolve cwd r)) p
        ∈ entriesOf (Path := Posix.module cwd) options
      /\ main (Path := Posix.module cwd) usage makeSelfExtractingScript
           options w
         = assemble makeSelfExtractingScript
             (scriptConfig (loadedOptions options w))
             (entriesOf (Path := Posix.module cwd) options)
             (fst (openedOutput options (afterReads options w)))
             (snd (openedOutput options (afterReads options w)))).
Proof.
  intros Hhelp Hroot Hp Hout. split.
  - unfold entryName. rewrite Hroot. cbn.
    by apply Posix_relative_outside.
  - intros Hvalid. split.
    + unfold entriesOf. rewrite Hroot. cbn [fmap option_fmap option_map].
      apply list_elem_of_In, in_map, list_elem_of_In, Hp.
    + rewrite (main_no_help _ _ _ _ Hhelp).
      by apply createArchive_valid.
Qed.

Lemma paths_outside_root_witness :
  help SampleRoots.request = false
  /\ root SampleRoots.request = Some "/proj"
  /\ entryName (Path := Sample.posix) SampleRoots.request "/other/b.txt"
     = "../other/b.txt"
  /\ exists rest,
       entryName (Path := Sample.posix) SampleRoots.request "/other/b.txt"
       = ".." +:+ rest
       /\ (rest = "" \/ exists rest', rest = "/" +:+ rest').
Proof.
  split; [reflexivity |]. split; [reflexivity |]. split; [reflexivity |].
  assert (Hin : "/other/b.txt" ∈ files SampleRoots.request)
    by (apply (bool_decide_unpack _); vm_compute; exact I).
  assert (Hout : ~ Posix.segments "/work" (Posix.resolve "/work" "/proj")
                     `prefix_of` Posix.segments "/work" "/other/b.txt").
  { intros Hpre. apply (bool_decide_pack _) in Hpre.
    vm_compute in Hpre. exact Hpre. }
  exact (proj1 (paths_outside_root Sample.usage Sample.readingAssembler
                  "/work" SampleRoots.request Sample.world "/proj"
                  "/other/b.txt" eq_refl eq_refl Hin Hout)).
Defined.

(** ** Further properties of a run *)

(** Settles that a sample request passes every check. *)
Ltac sample_valid :=
  split; [split_and!|];
  [ discriminate
  | reflexivity
  | first [by left | by right]
  | first [ solve [intros ? [=]]
          | intros ? [= <-]; apply validCompressLevels_spec;
            vm_compute; reflexivity ]
  | first [ solve [intros ? [=]]
          | intros ? [= <-]; eexists; vm_compute; reflexivity ]
  | first [ solve [intros ? [=]]
          | intros ? [= <-]; eexists; vm_compute; reflexivity ]
  | apply (bool_decide_unpack _); vm_compute; exact I ].

Section MoreRuns.
Context {Path : PathModule}.
Variable usage : string.
Variable makeSelfExtractingScript :
  ScriptConfig -> list FileEntry -> OutputStream -> World -> Settled * World.

Lemma main_valid (options : OptionsType) (w : World) :
  help options = false ->
  validRequest options w ->
  main usage makeSelfExtractingScript options w
  = assemble makeSelfExtractingScript
      (scriptConfig (loadedOptions options w)) (entriesOf options)
      (fst (openedOutput options (afterReads options w)))
      (snd (openedOutput options (afterReads options w))).
Proof.
  intros Hhelp Hvalid. rewrite (main_no_help _ _ _ _ Hhelp).
  by apply createArchive_valid.
Qed.

(** The run up to the reading of the script files, for a request that
    passes the four option checks. *)
Lemma createArchive_loads (options : OptionsType) (w : World) :
  files options <> [] ->
  noPostExtraction options = false ->
  type options = "tar" \/ type options = "zip" ->
  (forall v, compress_level options = Some v -> isLevel v) ->
  prepare options w
  = (match pre_extract_file options with
     | Some file =>
         r ← readFile file;
         match r with
         | Some preExtract => mret (set_pre_extract options preExtract)
         | None =>
             console_error
               ("Failed to read pre-extraction script '" +:+ file +:+ "'");;
             process_exit 1
         end
     | None => mret options
     end ≫= fun options =>
     match post_extract_file options with
     | Some file =>
         r ← readFile file;
         match r with
         | Some postExtract => mret (set_post_extract options postExtract)
         | None =>
             console_error
               ("Failed to read post-extraction script '" +:+ file +:+ "'");;
             process_exit 1
         end
     | None => mret options
     end ≫= fun options =>
     let resolvedRoot := path_resolve <$> root options in
     let entries := map (resolveEntry resolvedRoot) (files options) in
     let entryCount := countEntries entries in
     (if negb (JsMap.size entryCount =? length entries)%nat
      then console_error "Archive contains duplicate files";;
           console_errors (flat_map reportEntry entryCount);;
           process_exit 1
      else mret tt);;
     mret (options, entries)) w.
Proof.
  intros Hfiles Hpost Htype Hlevel. unfold prepare.
  rewrite guard_run. destruct (files options); [done |].
  cbn [length Nat.eqb]. rewrite guard_run, Hpost.
  unfold validateArchiveType. rewrite guard_run.
  apply validArchiveTypes_spec in Htype. rewrite Htype. cbn [negb].
  rewrite validateCompressLevel_guard, guard_run.
  by rewrite (proj2 (levelRejected_spec _) Hlevel).
Qed.

Lemma createArchive_unreadable_pre (options : OptionsType) (w : World)
    (file : string) :
  files options <> [] ->
  noPostExtraction options = false ->
  type options = "tar" \/ type options = "zip" ->
  (forall v, compress_level options = Some v -> isLevel v) ->
  pre_extract_file options = Some file ->
  disk w !! file = None ->
  createArchive makeSelfExtractingScript options w
  = (Exited 1,
     {| disk := disk w;
        trace := trace w
          ++ [ReadFile file;
              ConsoleError
                ("Failed to read pre-extraction script '" +:+ file +:+ "'")]
     |}).
Proof.
  intros Hfiles Hpost Htype Hlevel Hpre Hread. unfold createArchive.
  rewrite bind_run, createArchive_loads by done.
  rewrite (load_run _ "Failed to read pre-extraction script '"
             set_pre_extract).
  by rewrite Hpre, Hread.
Qed.

Lemma createArchive_unreadable_post (options : OptionsType) (w : World)
    (file : string) :
  files options <> [] ->
  noPostExtraction options = false ->
  type options = "tar" \/ type options = "zip" ->
  (forall v, compress_level options = Some v -> isLevel v) ->
  readable w (pre_extract_file options) ->
  post_extract_file options = Some file ->
  disk w !! file = None ->
  createArchive makeSelfExtractingScript options w
  = (Exited 1,
     {| disk := disk w;
        trace := trace w
          ++ map ReadFile (option_list (pre_extract_file options))
          ++ [ReadFile file;
              ConsoleError
                ("Failed to read post-extraction script '" +:+ file +:+ "'")]
     |}).
Proof.
  intros Hfiles Hpost Htype Hlevel Hpre Hfile Hread. unfold createArchive.
  rewrite bind_run, createArchive_loads by done.
  rewrite (load_run _ "Failed to read pre-extraction script '"
             set_pre_extract).
  destruct (pre_extract_file options) as [f1|] eqn:E.
  - destruct (Hpre f1 eq_refl) as [text1 Hread1]. rewrite Hread1.
    rewrite (load_run _ "Failed to read post-extraction script '"
               set_post_extract).
    cbn [post_extract_file set_pre_extract disk trace].
    rewrite Hfile, Hread. cbn. by rewrite <- app_assoc.
  - rewrite (load_run _ "Failed to read post-extraction script '"
               set_post_extract).
    by rewrite Hfile, Hread.
Qed.
End MoreRuns.

(** ** The pre-extraction script *)

(** X1: for a request that passes every check, the pre-extraction script
    handed to the assembler is the content of [--pre-extract-file] when
    that option is given, whatever [--pre-extract] says, and the inline
    text otherwise; with neither option it is [undefined], and the request
    is still accepted. *)
Theorem pre_extraction_script_source {Path : PathModule} (usage : string)
    (makeSelfExtractingScript :
       ScriptConfig -> list FileEntry -> OutputStream -> World -> Settled * World)
    (options : OptionsType) (w : World) :
  help options = false ->
  validRequest options w ->
  main usage makeSelfExtractingScript options w
  = assemble makeSelfExtractingScript
      (scriptConfig (loadedOptions options w)) (entriesOf options)
      (fst (openedOutput options (afterReads options w)))
      (snd (openedOutput options (afterReads options w)))
  /\ (forall file, pre_extract_file options = Some file ->
      exists text,
        disk w !! file = Some text
        /\ preExtraction (scriptConfig (loadedOptions options w)) = Some text)
  /\ (pre_extract_file options = None ->
      preExtraction (scriptConfig (loadedOptions options w))
      = pre_extract options).
Proof.
  intros Hhelp Hvalid. split; [by apply main_valid |]. split.
  - intros file Hfile.
    destruct Hvalid as [(_ & _ & _ & _ & Hread & _) _].
    destruct (Hread file Hfile) as [text Htext]. exists text.
    split; [done |]. cbn. by rewrite Hfile.
  - intros Hnone. cbn. by rewrite Hnone.
Qed.

Lemma pre_extraction_script_source_witness :
  (exists text,
     disk SampleFiles.world !! "pre.sh" = Some text
     /\ preExtraction
          (scriptConfig (loadedOptions SampleFiles.preFile SampleFiles.world))
        = Some text)
  /\ preExtraction
       (scriptConfig (loadedOptions SampleFiles.noPre SampleFiles.world))
     = None.
Proof.
  assert (Hfile : validRequest (Path := Sample.posix) SampleFiles.preFile
                    SampleFiles.world) by sample_valid.
  assert (Hnone : validRequest (Path := Sample.posix) SampleFiles.noPre
                    SampleFiles.world) by sample_valid.
  destruct (pre_extraction_script_source (Path := Sample.posix) Sample.usage
              Sample.readingAssembler SampleFiles.preFile SampleFiles.world
              eq_refl Hfile) as (_ & Hfrom & _).
  destruct (pre_extraction_script_source (Path := Sample.posix) Sample.usage
              Sample.readingAssembler SampleFiles.noPre SampleFiles.world
              eq_refl Hnone) as (_ & _ & Hinline).
  split; [exact (Hfrom "pre.sh" eq_refl) | exact (Hinline eq_refl)].
Defined.

(** X2: when the option checks pass and the file named by
    [--pre-extract-file] cannot be read, the run reads that file, prints
    "Failed to read pre-extraction script '<file>'" and exits with status 1;
    it reads nothing else, the post-extraction script file included, and
    leaves the disk as it was. *)
Theorem unreadable_pre_extract_file {Path : PathModule} (usage : string)
    (makeSelfExtractingScript :
       ScriptConfig -> list FileEntry -> OutputStream -> World -> Settled * World)
    (options : OptionsType) (w : World) (file : string) :
  help options = false ->
  files options <> [] ->
  noPostExtraction options = false ->
  type options = "tar" \/ type options = "zip" ->
  (forall v, compress_level options = Some v -> isLevel v) ->
  pre_extract_file options = Some file ->
  disk w !! file = None ->
  main usage makeSelfExtractingScript options w
  = (Exited 1,
     {| disk := disk w;
        trace := trace w
          ++ [ReadFile file;
              ConsoleError
                ("Failed to read pre-extraction script '" +:+ file +:+ "'")]
     |}).
Proof.
  intros Hhelp Hfiles Hpost Htype Hlevel Hpre Hread.
  rewrite (main_no_help _ _ _ _ Hhelp).
  by apply createArchive_unreadable_pre.
Qed.

Lemma unreadable_pre_extract_file_witness :
  main (Path := Sample.posix) Sample.usage Sample.readingAssembler
    SampleFiles.missingPre SampleFiles.world
  = (Exited 1,
     {| disk := disk SampleFiles.world;
        trace := [ReadFile "nope.sh";
                  ConsoleError
                    "Failed to read pre-extraction script 'nope.sh'"] |}).
Proof.
  apply (unreadable_pre_extract_file (Path := Sample.posix) Sample.usage
           Sample.readingAssembler SampleFiles.missingPre SampleFiles.world
           "nope.sh").
  - reflexivity.
  - discriminate.
  - reflexivity.
  - by left.
  - intros v [=].
  - reflexivity.
  - vm_compute. reflexivity.
Defined.

(** X3: when the option checks pass, the pre-extraction script file (if
    any) is readable and the file named by [--post-extract-file] cannot be
    read, the run reads the pre-extraction file and then the
    post-extraction file, prints "Failed to read post-extraction script
    '<file>'" and exits with status 1, the disk as it was. *)
Theorem unreadable_post_extract_file {Path : PathModule} (usage : string)
    (makeSelfExtractingScript :
       ScriptConfig -> list FileEntry -> OutputStream -> World -> Settled * World)
    (options : OptionsType) (w : World) (file : string) :
  help options = false ->
  files options <> [] ->
  noPostExtraction options = false ->
  type options = "tar" \/ type options = "zip" ->
  (forall v, compress_level options = Some v -> isLevel v) ->
  readable w (pre_extract_file options) ->
  post_extract_file options = Some file ->
  disk w !! file = None ->
  main usage makeSelfExtractingScript options w
  = (Exited 1,
     {| disk := disk w;
        trace := trace w
          ++ map ReadFile (option_list (pre_extract_file options))
          ++ [ReadFile file;
              ConsoleError
                ("Failed to read post-extraction script '" +:+ file +:+ "'")]
     |}).
Proof.
  intros Hhelp Hfiles Hpost Htype Hlevel Hpre Hfile Hread.
  rewrite (main_no_help _ _ _ _ Hhelp).
  by apply createArchive_unreadable_post.
Qed.

Lemma unreadable_post_extract_file_witness :
  main (Path := Sample.posix) Sample.usage Sample.readingAssembler
    SampleFiles.missingPost SampleFiles.world
  = (Exited 1,
     {| disk := disk SampleFiles.world;
        trace := [ReadFile "pre.sh"; ReadFile "gone.sh";
                  ConsoleError
                    "Failed to read post-extraction script 'gone.sh'"] |}).
Proof.
  apply (unreadable_post_extract_file (Path := Sample.posix) Sample.usage
           Sample.readingAssembler SampleFiles.missingPost SampleFiles.world
           "gone.sh").
  - reflexivity.
  - discriminate.
  - reflexivity.
  - by left.
  - intros v [=].
  - intros f [= <-]. eexists. vm_compute. reflexivity.
  - reflexivity.
  - vm_compute. reflexivity.
Defined.

(** ** Empty scripts *)

(** X4: the post-extraction check refuses exactly an absent
    [--post-extract] and an empty one that comes without
    [--post-extract-file]; without [--help] and with files to embed, such a
    request ends with "No post extraction script specified" and exit
    status 1 before anything is read. *)
Theorem empty_inline_text_is_refused {Path : PathModule} (usage : string)
    (makeSelfExtractingScript :
       ScriptConfig -> list FileEntry -> OutputStream -> World -> Settled * World)
    (options : OptionsType) (w : World) :
  help options = false ->
  files options <> [] ->
  (noPostExtraction options = true
   <-> post_extract options = None
       \/ (post_extract options = Some EmptyString
           /\ post_extract_file options = None))
  /\ (post_extract options = None
      \/ (post_extract options = Some EmptyString
          /\ post_extract_file options = None) ->
      main usage makeSelfExtractingScript options w
      = (Exited 1, afterError "No post extraction script specified" w)).
Proof.
  intros Hhelp Hfiles.
  assert (Hiff : noPostExtraction options = true
                 <-> post_extract options = None
                     \/ (post_extract options = Some EmptyString
                         /\ post_extract_file options = None)).
  { unfold noPostExtraction.
    destruct (post_extract options) as [[|c text]|],
      (post_extract_file options); cbn; split; try done;
      try (by intros [?|[? ?]]); auto. }
  split; [done |]. intros Hmissing.
  rewrite (main_no_help _ _ _ _ Hhelp).
  apply createArchive_no_post; [done | by apply Hiff].
Qed.

Lemma empty_inline_text_is_refused_witness :
  post_extract SampleFiles.emptyInline = Some EmptyString
  /\ main (Path := Sample.posix) Sample.usage Sample.readingAssembler
       SampleFiles.emptyInline SampleFiles.world
     = (Exited 1,
        afterError "No post extraction script specified" SampleFiles.world).
Proof.
  split; [reflexivity |].
  apply (empty_inline_text_is_refused (Path := Sample.posix) Sample.usage
           Sample.readingAssembler SampleFiles.emptyInline SampleFiles.world).
  - reflexivity.
  - discriminate.
  - right. split; reflexivity.
Defined.

(** X5: the check for a post-extraction script is made on the inline text
    before the script file is read, and the file's content is not checked:
    a request that passes every check and names an empty script file
    reaches the assembler with an empty post-extraction script. *)
Theorem empty_script_file_is_accepted {Path : PathModule} (usage : string)
    (makeSelfExtractingScript :
       ScriptConfig -> list FileEntry -> OutputStream -> World -> Settled * World)
    (options : OptionsType) (w : World) (file : string) :
  help options = false ->
  validRequest options w ->
  post_extract_file options = Some file ->
  disk w !! file = Some EmptyString ->
  main usage makeSelfExtractingScript options w
  = assemble makeSelfExtractingScript
      (scriptConfig (loadedOptions options w)) (entriesOf options)
      (fst (openedOutput options (afterReads options w)))
      (snd (openedOutput options (afterReads options w)))
  /\ postExtraction (scriptConfig (loadedOptions options w))
     = Some EmptyString.
Proof.
  intros Hhelp Hvalid Hfile Hempty. split; [by apply main_valid |].
  cbn. by rewrite Hfile.
Qed.

Lemma empty_script_file_is_accepted_witness :
  disk SampleFiles.world !! "empty.sh" = Some EmptyString
  /\ postExtraction
       (scriptConfig (loadedOptions SampleFiles.emptyFile SampleFiles.world))
     = Some EmptyString.
Proof.
  assert (Hvalid : validRequest (Path := Sample.posix) SampleFiles.emptyFile
                     SampleFiles.world) by sample_valid.
  split; [vm_compute; reflexivity |].
  apply (empty_script_file_is_accepted (Path := Sample.posix) Sample.usage
           Sample.readingAssembler SampleFiles.emptyFile SampleFiles.world
           "empty.sh" eq_refl Hvalid eq_refl).
  vm_compute. reflexivity.
Defined.

(** ** The output stream *)

(** X6: without [--output], a request that passes every check is handed
    to the assembler with the standard output as its stream; up to that
    point the run has only read the script files: no file is created or
    changed and nothing is printed. *)
Theorem standard_output_sink {Path : PathModule} (usage : string)
    (makeSelfExtractingScript :
       ScriptConfig -> list FileEntry -> OutputStream -> World -> Settled * World)
    (options : OptionsType) (w : World) :
  help options = false ->
  validRequest options w ->
  output options = None ->
  main usage makeSelfExtractingScript options w
  = assemble makeSelfExtractingScript
      (scriptConfig (loadedOptions options w)) (entriesOf options) Stdout
      {| disk := disk w;
         trace := trace w ++ map ReadFile (scriptReads options) |}.
Proof.
  intros Hhelp Hvalid Hout. rewrite (main_valid _ _ _ _ Hhelp Hvalid).
  unfold openedOutput. by rewrite Hout.
Qed.

Lemma standard_output_sink_witness :
  output SampleFiles.preFile = None
  /\ main (Path := Sample.posix) Sample.usage Sample.readingAssembler
       SampleFiles.preFile SampleFiles.world
     = assemble Sample.readingAssembler
         (scriptConfig (loadedOptions SampleFiles.preFile SampleFiles.world))
         (entriesOf (Path := Sample.posix) SampleFiles.preFile) Stdout
         {| disk := disk SampleFiles.world; trace := [ReadFile "pre.sh"] |}.
Proof.
  assert (Hvalid : validRequest (Path := Sample.posix) SampleFiles.preFile
                     SampleFiles.world) by sample_valid.
  split; [reflexivity |].
  exact (standard_output_sink (Path := Sample.posix) Sample.usage
           Sample.readingAssembler SampleFiles.preFile SampleFiles.world
           eq_refl Hvalid eq_refl).
Defined.

(** ** What the assembler is given *)

(** X7: whenever the run gets as far as the assembler, the configuration
    it builds has an archive format that is "tar" or "zip", a compression
    level that is absent or one of 0 to 9, and a post-extraction script
    that is defined; format, level and the omit-header flag are the ones
    of the command line. *)
Theorem assembler_config_is_validated {Path : PathModule}
    (options o : OptionsType) (es : list FileEntry) (w w' : World) :
  prepare options w = (Returned (o, es), w') ->
  (archiveFormat (scriptConfig o) = "tar"
   \/ archiveFormat (scriptConfig o) = "zip")
  /\ (forall v, compressionLevel (scriptConfig o) = Some v -> isLevel v)
  /\ is_Some (postExtraction (scriptConfig o))
  /\ archiveFormat (scriptConfig o) = type options
  /\ compressionLevel (scriptConfig o) = compress_level options
  /\ omitLibraryHeader (scriptConfig o) = omit_header options.
Proof.
  intros ([(_ & Hpost & Htype & Hlevel & _ & Hread) _] & -> & _ & _)
           %prepare_returns.
  split_and!; try done. cbn. unfold scriptText.
  destruct (post_extract_file options) as [file|]; [by apply Hread |].
  unfold noPostExtraction in Hpost.
  by destruct (post_extract options).
Qed.

Lemma assembler_config_is_validated_witness :
  archiveFormat
    (scriptConfig (loadedOptions SampleFiles.preFile SampleFiles.world))
  = "zip"
  /\ is_Some (postExtraction
                (scriptConfig
                   (loadedOptions SampleFiles.preFile SampleFiles.world))).
Proof.
  destruct (assembler_config_is_validated (Path := Sample.posix)
              SampleFiles.preFile
              (loadedOptions SampleFiles.preFile SampleFiles.world)
              (entriesOf (Path := Sample.posix) SampleFiles.preFile)
              SampleFiles.world
              (afterReads SampleFiles.preFile SampleFiles.world)
              ltac:(vm_compute; reflexivity))
    as (_ & _ & Hpost & Hformat & _).
  split; [exact Hformat | exact Hpost].
Defined.

(** X8: whenever the run gets as far as the assembler, the entries it
    hands over are as many as the input paths and at least one, their
    names are pairwise different, and every mode is [0o755] or [0o644]. *)
Theorem assembler_entries_invariant {Path : PathModule}
    (options o : OptionsType) (es : list FileEntry) (w w' : World) :
  prepare options w = (Returned (o, es), w') ->
  es <> []
  /\ length es = length (files options)
  /\ NoDup (filename <$> es)
  /\ Forall (fun e => mode e = 493%Z \/ mode e = 420%Z) es.
Proof.
  intros ([(Hfiles & _) Hnodup] & _ & -> & _)%prepare_returns.
  unfold entriesOf in *. split_and!.
  - by destruct (files options).
  - apply length_map.
  - done.
  - apply Forall_forall. intros e (p & <- & _)%list_elem_of_In%in_map_iff.
    cbn. destruct (String.eqb _ _); auto.
Qed.

Lemma assembler_entries_invariant_witness :
  length (entriesOf (Path := Sample.posix) SampleRoots.scripts) = 3
  /\ NoDup (filename <$> entriesOf (Path := Sample.posix) SampleRoots.scripts).
Proof.
  destruct (assembler_entries_invariant (Path := Sample.posix)
              SampleRoots.scripts
              (loadedOptions SampleRoots.scripts Sample.world)
              (entriesOf (Path := Sample.posix) SampleRoots.scripts)
              Sample.world
              (afterReads SampleRoots.scripts Sample.world)
              ltac:(vm_compute; reflexivity))
    as (_ & Hlength & Hnodup & _).
  split; [exact Hlength | exact Hnodup].
Defined.

(** ** The contents of [entryCount] *)

Lemma concat_insert_one {A : Type} (g : string -> list A) (k : string)
    (x : A) (keys : list string) :
  NoDup keys -> k ∈ keys ->
  concat (map (fun n => if decide (k = n) then x :: g n else g n) keys)
  ≡ₚ x :: concat (map g keys).
Proof.
  induction keys as [|n keys IH]; intros Hnd Hk.
  - by apply elem_of_nil in Hk.
  - apply NoDup_cons in Hnd as [Hn Hnd]. simpl.
    destruct (decide (k = n)) as [->|Hne].
    + assert (Heq : map (fun n0 => if decide (n = n0) then x :: g n0
                                   else g n0) keys
                    = map g keys).
      { apply map_ext_in. intros a Ha%list_elem_of_In.
        rewrite decide_False; [done | by intros <-]. }
      by rewrite Heq.
    + apply elem_of_cons in Hk as [?|Hk]; [done |].
      rewrite (IH Hnd Hk). by rewrite Permutation_middle.
Qed.

Lemma concat_sources (es : list FileEntry) (keys : list string) :
  NoDup keys ->
  (forall e, e ∈ es -> filename e ∈ keys) ->
  concat (map (fun n => sources n es) keys) ≡ₚ path <$> es.
Proof.
  intros Hnd. induction es as [|e es IH]; intros Hkeys.
  - clear. induction keys as [|n keys IH]; [done | by simpl].
  - rewrite fmap_cons, <- IH by (intros; apply Hkeys; by right).
    rewrite <- (concat_insert_one (fun n => sources n es) (filename e))
      by (done || apply Hkeys; left).
    assert (Heq : map (fun n => sources n (e :: es)) keys
                  = map (fun n => if decide (filename e = n)
                                  then path e :: sources n es
                                  else sources n es) keys).
    { apply map_ext. intros n. unfold sources. case_decide as Hn.
      - by rewrite filter_cons_True.
      - by rewrite filter_cons_False. }
    by rewrite Heq.
Qed.

Lemma tabulate_keys {V : Type} (g : string -> V) (keys : list string) :
  fst <$> map (fun n => (n, g n)) keys = keys.
Proof. induction keys as [|n keys IH]; [done |]. cbn. by f_equal. Qed.

Lemma tabulate_values {V : Type} (g : string -> V) (keys : list string) :
  snd <$> map (fun n => (n, g n)) keys = map g keys.
Proof. induction keys as [|n keys IH]; [done |]. cbn. by f_equal. Qed.

(** X9: after the loop that fills it, [entryCount] answers a name that
    some entry has with the paths of all the entries of that name, in
    input order, and any other name with [undefined]; its keys are
    pairwise different; and its values together hold every entry's path
    exactly once. *)
Theorem entryCount_contents (es : list FileEntry) :
  (forall n,
     JsMap.get n (countEntries es)
     = if decide (n ∈ filename <$> es)
       then Some (path <$> filter (fun e => filename e = n) es)
       else None)
  /\ NoDup (fst <$> countEntries es)
  /\ concat (snd <$> countEntries es) ≡ₚ path <$> es.
Proof.
  rewrite countEntries_closed. split_and!.
  - intros n. rewrite JsMap_get_tabulate.
    destruct (decide (n ∈ filename <$> es)) as [Hn|Hn].
    + by rewrite decide_True by by apply elem_of_firstOccurrences.
    + rewrite decide_False; [done |].
      intros Hin. by apply Hn, elem_of_firstOccurrences.
  - rewrite tabulate_keys. apply NoDup_firstOccurrences.
  - rewrite tabulate_values.
    apply (concat_sources es); [apply NoDup_firstOccurrences |].
    intros e He. apply elem_of_firstOccurrences.
    by apply list_elem_of_fmap_2.
Qed.

(** X10: the test [entryCount.size != files.length] is exact: the map
    never has more keys than there are entries, and it has as many exactly
    when no two entries share a name; so a request that passes the earlier
    checks gets past the duplicate check if and only if its entry names
    are pairwise different. *)
Theorem size_test_is_exact {Path : PathModule} (options : OptionsType)
    (w : World) :
  JsMap.size (countEntries (entriesOf options)) <= length (entriesOf options)
  /\ (JsMap.size (countEntries (entriesOf options))
      = length (entriesOf options)
      <-> NoDup (filename <$> entriesOf options))
  /\ (checksBeforeEntries options w ->
      (NoDup (filename <$> entriesOf options)
       <-> exists o es w', prepare options w = (Returned (o, es), w'))).
Proof.
  split_and!.
  - unfold JsMap.size. rewrite countEntries_closed, length_map.
    etrans; [apply length_firstOccurrences_le | by rewrite length_fmap].
  - rewrite <- countEntries_size. symmetry. apply Nat.eqb_eq.
  - intros Hchecks. split.
    + intros Hnodup.
      destruct (prepare_spec options w) as [_|reads msg Hno|_ Hdup];
        [eauto | done | done].
    + intros (o & es & w' & Hrun).
      by apply prepare_returns in Hrun as ([_ ?] & _).
Qed.

Lemma size_test_is_exact_witness :
  JsMap.size (countEntries (entriesOf (Path := Sample.posix)
                              SampleDuplicates.request)) = 3
  /\ length (entriesOf (Path := Sample.posix) SampleDuplicates.request) = 6
  /\ exists o es w',
       prepare (Path := Sample.posix) Sample.request Sample.world
       = (Returned (o, es), w').
Proof.
  split; [reflexivity |]. split; [reflexivity |].
  destruct Sample_request_valid as [Hchecks Hnodup].
  destruct (size_test_is_exact (Path := Sample.posix) Sample.request
              Sample.world) as (_ & _ & Hruns).
  exact (proj1 (Hruns Hchecks) Hnodup).
Defined.

(** ** The order of the checks *)

(** X11: without [--help] the option checks are made in a fixed order and
    only the first failure is reported: an empty file list first, then a
    missing post-extraction script, then the archive type, then the
    compression level; each ends the run with its one message and exit
    status 1 before any script file is read. *)
Theorem option_checks_in_order {Path : PathModule} (usage : string)
    (makeSelfExtractingScript :
       ScriptConfig -> list FileEntry -> OutputStream -> World -> Settled * World)
    (options : OptionsType) (w : World) :
  help options = false ->
  (files options = [] ->
   main usage makeSelfExtractingScript options w
   = (Exited 1, afterError "No files to embed specified" w))
  /\ (files options <> [] ->
      noPostExtraction options = true ->
      main usage makeSelfExtractingScript options w
      = (Exited 1, afterError "No post extraction script specified" w))
  /\ (files options <> [] ->
      noPostExtraction options = false ->
      type options <> "tar" ->
      type options <> "zip" ->
      main usage makeSelfExtractingScript options w
      = (Exited 1,
         afterError "Invalid archive type. Values tar or zip allowed" w))
  /\ (files options <> [] ->
      noPostExtraction options = false ->
      type options = "tar" \/ type options = "zip" ->
      forall v, compress_level options = Some v -> ~ isLevel v ->
      main usage makeSelfExtractingScript options w
      = (Exited 1,
         afterError "Invalid compression level. Values 0-9 allowed" w)).
Proof.
  intros Hhelp. rewrite (main_no_help _ _ _ _ Hhelp). split_and!.
  - apply createArchive_no_files.
  - apply createArchive_no_post.
  - apply createArchive_bad_type.
  - intros Hfiles Hpost Htype v Hv Hnot.
    by apply (createArchive_bad_level _ _ _ v).
Qed.

Lemma option_checks_in_order_witness :
  type SampleFiles.allWrong = "rar"
  /\ compress_level SampleFiles.allWrong = Some (of_Z 12)
  /\ main (Path := Sample.posix) Sample.usage Sample.readingAssembler
       SampleFiles.allWrong SampleFiles.world
     = (Exited 1,
        afterError "No post extraction script specified" SampleFiles.world).
Proof.
  split; [reflexivity |]. split; [reflexivity |].
  destruct (option_checks_in_order (Path := Sample.posix) Sample.usage
              Sample.readingAssembler SampleFiles.allWrong SampleFiles.world
              eq_refl) as (_ & Hpost & _).
  apply Hpost; [discriminate | reflexivity].
Defined.

(** X14: [files] defaults to the empty list and [help] to [false], so a
    command line that command-line-args accepts and that holds neither
    files nor [--help] does not show the help text: it is refused with "No
    files to embed specified" and exit status 1, whatever the values of
    its other options. *)
Theorem no_arguments_is_an_error {Path : PathModule} (usage : string)
    (makeSelfExtractingScript :
       ScriptConfig -> list FileEntry -> OutputStream -> World -> Settled * World)
    (supplied : CommandLine) (w : World) :
  arg_files supplied = None ->
  arg_help supplied = None ->
  script usage makeSelfExtractingScript (Accepted supplied) w
  = (Exited 1, afterError "No files to embed specified" w).
Proof.
  intros Hfiles Hhelp. unfold script. cbn [commandLineArgs].
  rewrite main_no_help
    by (unfold withDefaults; cbn; by rewrite Hhelp).
  apply createArchive_no_files.
  unfold withDefaults. cbn. by rewrite Hfiles.
Qed.

Lemma no_arguments_is_an_error_witness :
  script (Path := Sample.posix) Sample.usage Sample.readingAssembler
    (Accepted SampleFiles.bare) Sample.world
  = (Exited 1, afterError "No files to embed specified" Sample.world).
Proof.
  exact (no_arguments_is_an_error (Path := Sample.posix) Sample.usage
           Sample.readingAssembler SampleFiles.bare Sample.world
           eq_refl eq_refl).
Defined.

(** ** The output file and the files read *)

(** X12: nothing keeps the output from being one of the files to embed:
    when [--output] names the resolved path of an input, the request
    passes the checks all the same and reaches the assembler, which is
    given that one path both as the file of the stream to write to and as
    the source of an entry to read; the program itself has not touched
    the disk by then. *)
Theorem output_among_inputs_is_accepted {Path : PathModule} (usage : string)
    (makeSelfExtractingScript :
       ScriptConfig -> list FileEntry -> OutputStream -> World -> Settled * World)
    (options : OptionsType) (w : World) (file p : string) :
  help options = false ->
  validRequest options w ->
  output options = Some file ->
  p ∈ files options ->
  path_resolve p = file ->
  main usage makeSelfExtractingScript options w
  = assemble makeSelfExtractingScript
      (scriptConfig (loadedOptions options w)) (entriesOf options)
      (WriteStream file)
      {| disk := disk w;
         trace := trace w ++ map ReadFile (scriptReads options)
                    ++ [CreateWriteStream file] |}
  /\ exists e, e ∈ entriesOf options /\ path e = file.
Proof.
  intros Hhelp Hvalid Hout Hp Hpath. split.
  - rewrite (main_valid _ _ _ _ Hhelp Hvalid).
    unfold openedOutput, afterReads. rewrite Hout. cbn [fst snd disk trace].
    by rewrite <- app_assoc.
  - exists (resolveEntry (path_resolve <$> root options) p).
    split; [|done]. unfold entriesOf.
    by apply list_elem_of_In, in_map, list_elem_of_In.
Qed.

Lemma output_among_inputs_is_accepted_witness :
  main (Path := Sample.posix) Sample.usage Sample.readingAssembler
    SampleFiles.outputIsInput SampleFiles.world
  = assemble Sample.readingAssembler
      (scriptConfig
         (loadedOptions SampleFiles.outputIsInput SampleFiles.world))
      (entriesOf (Path := Sample.posix) SampleFiles.outputIsInput)
      (WriteStream "/work/a.sh")
      {| disk := disk SampleFiles.world;
         trace := [CreateWriteStream "/work/a.sh"] |}
  /\ exists e,
       e ∈ entriesOf (Path := Sample.posix) SampleFiles.outputIsInput
       /\ path e = "/work/a.sh".
Proof.
  assert (Hvalid : validRequest (Path := Sample.posix)
                     SampleFiles.outputIsInput SampleFiles.world)
    by sample_valid.
  assert (Hin : "a.sh" ∈ files SampleFiles.outputIsInput)
    by (apply (bool_decide_unpack _); vm_compute; exact I).
  exact (output_among_inputs_is_accepted (Path := Sample.posix)
           Sample.usage Sample.readingAssembler
           SampleFiles.outputIsInput SampleFiles.world "/work/a.sh"
           "a.sh" eq_refl Hvalid eq_refl Hin eq_refl).
Defined.

(** X15: the script files are read before the program asks for the
    output stream: when [--output] names the post-extraction script file,
    a request that passes the checks hands the assembler the content that
    was read from the file, the read of the file comes before the request
    for the stream, and that request is the last thing the program does
    before the assembler, the disk still as it was. *)
Theorem script_is_read_before_output_opens {Path : PathModule}
    (usage : string)
    (makeSelfExtractingScript :
       ScriptConfig -> list FileEntry -> OutputStream -> World -> Settled * World)
    (options : OptionsType) (w : World) (file : string) :
  help options = false ->
  validRequest options w ->
  post_extract_file options = Some file ->
  output options = Some file ->
  main usage makeSelfExtractingScript options w
  = assemble makeSelfExtractingScript
      (scriptConfig (loadedOptions options w)) (entriesOf options)
      (WriteStream file)
      {| disk := disk w;
         trace := (trace w
                     ++ map ReadFile (option_list (pre_extract_file options))
                     ++ [ReadFile file])
                    ++ [CreateWriteStream file] |}
  /\ exists text,
       disk w !! file = Some text
       /\ postExtraction (scriptConfig (loadedOptions options w))
          = Some text.
Proof.
  intros Hhelp Hvalid Hfile Hout. split.
  - rewrite (main_valid _ _ _ _ Hhelp Hvalid).
    unfold openedOutput, afterReads, scriptReads.
    rewrite Hout, Hfile. cbn [fst snd disk trace option_list].
    by rewrite map_app, <- !app_assoc.
  - destruct Hvalid as [(_ & _ & _ & _ & _ & Hread) _].
    destruct (Hread file Hfile) as [text Htext]. exists text.
    split; [done |]. cbn. by rewrite Hfile.
Qed.

Lemma script_is_read_before_output_opens_witness :
  main (Path := Sample.posix) Sample.usage Sample.readingAssembler
    SampleFiles.outputIsScript SampleFiles.world
  = assemble Sample.readingAssembler
      (scriptConfig
         (loadedOptions SampleFiles.outputIsScript SampleFiles.world))
      (entriesOf (Path := Sample.posix) SampleFiles.outputIsScript)
      (WriteStream "post.sh")
      {| disk := disk SampleFiles.world;
         trace := [ReadFile "post.sh"; CreateWriteStream "post.sh"] |}
  /\ exists text,
       disk SampleFiles.world !! "post.sh" = Some text
       /\ postExtraction
            (scriptConfig
               (loadedOptions SampleFiles.outputIsScript SampleFiles.world))
          = Some text.
Proof.
  assert (Hvalid : validRequest (Path := Sample.posix)
                     SampleFiles.outputIsScript SampleFiles.world)
    by sample_valid.
  exact (script_is_read_before_output_opens (Path := Sample.posix)
           Sample.usage Sample.readingAssembler
           SampleFiles.outputIsScript SampleFiles.world "post.sh"
           eq_refl Hvalid eq_refl eq_refl).
Defined.

(** ** Names that collide without a root *)

Lemma collision_lines_printed {Path : PathModule} (options : OptionsType)
    (n line : string) :
  n ∈ collidingNames (entriesOf options) ->
  line ∈ collisionLines (entriesOf options) n ->
  line ∈ duplicateReport options.
Proof.
  intros Hn Hline. unfold duplicateReport. right.
  apply list_elem_of_In, in_flat_map. exists n.
  split; by apply list_elem_of_In.
Qed.

(** X13: without [--root] and without [--help], two input paths at
    different positions whose parsed base is the same, in whatever
    directories they lie, are refused: the run exits with status 1 after
    nothing but script-file reads and error messages; and once the
    earlier checks have passed, the messages it prints include "Archive
    would contain path <base> <k> times" with [k] at least 2 and a "From"
    line for the resolved path of each of the two. *)
Theorem same_base_name_collides {Path : PathModule} (usage : string)
    (makeSelfExtractingScript :
       ScriptConfig -> list FileEntry -> OutputStream -> World -> Settled * World)
    (options : OptionsType) (w : World) (i j : nat) (p q : string) :
  help options = false ->
  root options = None ->
  i <> j ->
  files options !! i = Some p ->
  files options !! j = Some q ->
  base (path_parse p) = base (path_parse q) ->
  (exists reads msgs, msgs <> [] /\
     main usage makeSelfExtractingScript options w
     = (Exited 1,
        {| disk := disk w;
           trace := trace w ++ map ReadFile reads
                            ++ map ConsoleError msgs |}))
  /\ (checksBeforeEntries options w ->
      exists k,
        2 <= k
        /\ ConsoleError
             ("Archive would contain path " +:+ base (path_parse p) +:+ " "
                +:+ nat_to_string k +:+ " times")
             ∈ trace (snd (main usage makeSelfExtractingScript options w))
        /\ ConsoleError ("  From " +:+ path_resolve p)
             ∈ trace (snd (main usage makeSelfExtractingScript options w))
        /\ ConsoleError ("  From " +:+ path_resolve q)
             ∈ trace (snd (main usage makeSelfExtractingScript options w))).
Proof.
  intros Hhelp Hroot Hij Hp Hq Hbase.
  assert (Hname : forall x, entryName options x = base (path_parse x))
    by (intros x; unfold entryName; by rewrite Hroot).
  assert (Hdup : ~ NoDup (filename <$> entriesOf options)).
  { apply (colliding_not_NoDup options i j p q); try done.
    by rewrite !Hname. }
  assert (Hin : base (path_parse p) ∈ collidingNames (entriesOf options)).
  { apply colliding_inputs. exists i, j, p, q.
    split_and!; try done. by rewrite Hname. }
  rewrite (main_no_help _ _ _ _ Hhelp). split.
  - apply createArchive_invalid. by intros [_ ?].
  - intros Hchecks.
    rewrite (createArchive_duplicates _ _ _ Hchecks Hdup). cbn [snd trace].
    exists (length (sources (base (path_parse p)) (entriesOf options))).
    assert (Hprinted : forall line,
              line ∈ collisionLines (entriesOf options) (base (path_parse p))
              -> ConsoleError line
                   ∈ trace w ++ map ReadFile (scriptReads options)
                       ++ map ConsoleError (duplicateReport options)).
    { intros line Hline. rewrite !elem_of_app. right. right.
      apply list_elem_of_In, in_map, list_elem_of_In.
      by apply (collision_lines_printed options (base (path_parse p))). }
    split_and!.
    + apply elem_of_collidingNames in Hin. unfold sources.
      by rewrite length_fmap.
    + apply Hprinted. left.
    + apply Hprinted. right.
      apply list_elem_of_In, in_map, list_elem_of_In, sources_inputs.
      exists p. split_and!; [by eapply list_elem_of_lookup_2 | done | done].
    + apply Hprinted. right.
      apply list_elem_of_In, in_map, list_elem_of_In, sources_inputs.
      exists q. split_and!; [by eapply list_elem_of_lookup_2 | | done].
      by rewrite Hname.
Qed.

Lemma same_base_name_collides_witness :
  exists k,
    2 <= k
    /\ ConsoleError
         ("Archive would contain path "
            +:+ base (path_parse (PathModule := Sample.posix) "src/a.txt")
            +:+ " " +:+ nat_to_string k +:+ " times")
         ∈ trace (snd (main (Path := Sample.posix) Sample.usage
                         Sample.readingAssembler SampleDuplicates.request
                         Sample.world))
    /\ ConsoleError
         ("  From " +:+ path_resolve (PathModule := Sample.posix) "src/a.txt")
         ∈ trace (snd (main (Path := Sample.posix) Sample.usage
                         Sample.readingAssembler SampleDuplicates.request
                         Sample.world))
    /\ ConsoleError
         ("  From " +:+ path_resolve (PathModule := Sample.posix) "out/a.txt")
         ∈ trace (snd (main (Path := Sample.posix) Sample.usage
                         Sample.readingAssembler SampleDuplicates.request
                         Sample.world)).
Proof.
  apply (same_base_name_collides (Path := Sample.posix) Sample.usage
           Sample.readingAssembler SampleDuplicates.request
           Sample.world 0 2 "src/a.txt" "out/a.txt" eq_refl eq_refl
           ltac:(lia) eq_refl eq_refl eq_refl).
  split_and!;
    [discriminate | reflexivity | by left | intros v [=] | intros f [=]
    | intros f [=]].
Defined.
